(** * return_test: a benchmark of two ways to return a byte buffer

    A shallow embedding of [main.cpp]: the fixed-capacity [StackBuffer], the
    transformation into either a [StackBuffer] or a [std::vector], the
    optional try/catch wrapper, the iteration driver, the trial runner and the
    reporting function, followed by the properties proved about them.

    Conventions.
    - [size_t] values are modelled in [N].  The program only compares them,
      takes their minimum and halves one of them, so no operation can wrap.
    - A [(const std::byte *buffer, size_t length)] pair is modelled by the
      list of bytes readable from the pointer, together with the length.
    - The bytes of a [std::array] that were never written are indeterminate;
      a cell is an [option byte], [None] standing for an indeterminate byte.
    - Template parameters are ordinary parameters.
    - Sizes in bytes are those of the 64-bit targets of the program: a
      [std::chrono::nanoseconds] is a 64-bit two's complement count and takes
      8 bytes, a [std::vector] takes 24. *)

From Stdlib Require Import ZArith NArith Lia.
From Stdlib.Strings Require Import Byte.
From stdpp Require Import base decidable option list gmap sorting pretty strings.

Open Scope N_scope.

(** ** Enumerations *)

(** Defines the data type used to return the buffer after the
    transformation. *)
Inductive ReturnMethod := Array | Vector.

(** Is exception handling used during the test? *)
Inductive ExceptionHandling := Omit | Include.

Global Instance ReturnMethod_eq_dec : EqDecision ReturnMethod.
Proof. solve_decision. Defined.

Global Instance ExceptionHandling_eq_dec : EqDecision ExceptionHandling.
Proof. solve_decision. Defined.

(** [static_cast<uint32_t>(TExceptionHandling)]: the enumerators are numbered
    in declaration order. *)
Definition ExceptionHandling_to_uint32 (e : ExceptionHandling) : N :=
  match e with Omit => 0 | Include => 1 end.

(** ** Memory cells and [std::memcpy] *)

Definition cell := option byte.

(** A freshly declared [std::array<std::byte, TSize>]: [TSize] indeterminate
    bytes. *)
Definition uninit (TSize : N) : list cell := replicate (N.to_nat TSize) None.

(** [std::memcpy(dest, src, n)]: the first [n] cells of [dest] are replaced by
    the first [n] cells of [src].  The C++ call requires both ranges to hold
    [n] cells ([in_bounds]); the calls made by [StackBuffer] are shown to meet
    that. *)
Definition memcpy (dest src : list cell) (n : N) : list cell :=
  take (N.to_nat n) src ++ drop (N.to_nat n) dest.

Definition in_bounds (dest src : list cell) (n : N) : Prop :=
  n <= N.of_nat (length dest) ∧ n <= N.of_nat (length src).

(** ** [StackBuffer<TSize>] *)

Module StackBuffer.

(** A small buffer allocated from the stack: [std::array<std::byte, TSize>
    m_data] and [size_t m_length]. *)
Record t (TSize : N) := Build { m_data : list cell; m_length : N }.

Arguments Build {TSize} _ _.
Arguments m_data {TSize} _.
Arguments m_length {TSize} _.

(** [StackBuffer(const std::byte *buffer, size_t length)]: the member
    initialiser sets [m_length] to [std::min(TSize, length)], the body copies
    [m_length] bytes into the (so far indeterminate) array. *)
Definition ctor (TSize : N) (buffer : list byte) (length : N) : t TSize :=
  let len := N.min TSize length in
  Build (memcpy (uninit TSize) (Some <$> buffer) len) len.

(** [StackBuffer(const StackBuffer &source)]. *)
Definition copy_ctor {TSize : N} (source : t TSize) : t TSize :=
  Build (memcpy (uninit TSize) (m_data source) (m_length source))
        (m_length source).

(** [StackBuffer(StackBuffer &&source)]: the bytes are copied, the source is
    left as it was. *)
Definition move_ctor {TSize : N} (source : t TSize) : t TSize :=
  Build (memcpy (uninit TSize) (m_data source) (m_length source))
        (m_length source).

(** The guarded statements of both assignment operators, for two distinct
    objects: [m_length = source.m_length; std::memcpy(m_data.data(),
    source.m_data.data(), source.m_length)]. *)
Definition assign_body {TSize : N} (this source : t TSize) : t TSize :=
  Build (memcpy (m_data this) (m_data source) (m_length source))
        (m_length source).

(** The bytes a buffer holds: its first [m_length] cells. *)
Definition contents {TSize : N} (b : t TSize) : list cell :=
  take (N.to_nat (m_length b)) (m_data b).

(** The class invariant: the array has its [TSize] cells, the length does not
    exceed the capacity, and the cells up to the length have been written. *)
Definition wf {TSize : N} (b : t TSize) : Prop :=
  N.of_nat (length (m_data b)) = TSize ∧
  m_length b <= TSize ∧
  Forall is_Some (contents b).

End StackBuffer.

(** ** Objects in memory: the assignment operators

    The assignment operators compare the addresses of their two operands, so
    they are modelled on a store that maps addresses to [StackBuffer<TSize>]
    objects. *)

Definition addr := positive.

(** How the call of a member function ends: it returns, or control flows off
    the end of a function that has to return a value, which the language
    leaves undefined.  [at_end] is the state the statements of the body had
    produced when that happened. *)
Inductive ending (S : Type) :=
| Returns (s : S)
| FlowsOffEnd (at_end : S).

Arguments Returns {S} _.
Arguments FlowsOffEnd {S} _.

(** The state a caller can go on with. *)
Definition returned {S : Type} (e : ending S) : option S :=
  match e with
  | Returns s => Some s
  | FlowsOffEnd _ => None
  end.

Section Store.

Context {TSize : N}.

Implicit Types σ : gmap addr (StackBuffer.t TSize).

(** [StackBuffer &operator=(const StackBuffer &source)].  The body is
    [if (this != &source) { ... }] and nothing else: on both paths control
    reaches the closing brace of a function that returns [StackBuffer &]
    without a return statement, so no call of the operator returns. *)
Definition copy_assign (this source : addr) σ
  : option (ending (gmap addr (StackBuffer.t TSize))) :=
  t ← σ !! this;
  s ← σ !! source;
  if decide (this ≠ source)
  then Some (FlowsOffEnd (<[this := StackBuffer.assign_body t s]> σ))
  else Some (FlowsOffEnd σ).

(** [StackBuffer &operator=(StackBuffer &&source)]: the same body, again
    without a return statement. *)
Definition move_assign (this source : addr) σ
  : option (ending (gmap addr (StackBuffer.t TSize))) :=
  t ← σ !! this;
  s ← σ !! source;
  if decide (this ≠ source)
  then Some (FlowsOffEnd (<[this := StackBuffer.assign_body t s]> σ))
  else Some (FlowsOffEnd σ).

(** Declaring an object at a fresh address with one of the constructors. *)
Definition declare (a : addr) (b : StackBuffer.t TSize) σ
  : option (gmap addr (StackBuffer.t TSize)) :=
  match σ !! a with
  | Some _ => None
  | None => Some (<[a := b]> σ)
  end.

(** The operations of the type, as a client can issue them. *)
Inductive op :=
| Construct (a : addr) (buffer : list byte) (length : N)
| CopyConstruct (a source : addr)
| MoveConstruct (a source : addr)
| CopyAssign (this source : addr)
| MoveAssign (this source : addr).

(** One operation.  [None] is a call the language gives no meaning to: an
    object that does not exist, a name declared twice, a constructor made to
    read more bytes than the source range holds, or a call that does not
    return. *)
Definition exec (o : op) σ : option (gmap addr (StackBuffer.t TSize)) :=
  match o with
  | Construct a buffer len =>
      if decide (N.min TSize len <= N.of_nat (length buffer))
      then declare a (StackBuffer.ctor TSize buffer len) σ
      else None
  | CopyConstruct a source =>
      s ← σ !! source; declare a (StackBuffer.copy_ctor s) σ
  | MoveConstruct a source =>
      s ← σ !! source; declare a (StackBuffer.move_ctor s) σ
  | CopyAssign this source => e ← copy_assign this source σ; returned e
  | MoveAssign this source => e ← move_assign this source σ; returned e
  end.

Fixpoint run (os : list op) σ : option (gmap addr (StackBuffer.t TSize)) :=
  match os with
  | [] => Some σ
  | o :: os' => σ' ← exec o σ; run os' σ'
  end.

(** Every object of the store satisfies the class invariant. *)
Definition store_wf σ : Prop := map_Forall (λ _ b, StackBuffer.wf b) σ.

End Store.

Definition is_assignment (o : op) : bool :=
  match o with
  | CopyAssign _ _ | MoveAssign _ _ => true
  | _ => false
  end.

(** ** The environment: clock, allocator and standard output

    The clock and the allocator are outside the program.  The [k]-th call of
    [std::chrono::high_resolution_clock::now()] reads [clock k], a count of
    nanoseconds; the [k]-th request made to the allocator, for [n] bytes, is
    served when [grants k n] holds and ends in [std::bad_alloc] otherwise. *)

Record World := MkWorld {
  clock : N → Z;
  grants : N → N → bool;
  reads : N;
  allocs : N;
  out : list string
}.

Definition add_reads (n : N) (w : World) : World :=
  MkWorld (clock w) (grants w) (reads w + n) (allocs w) (out w).

Definition add_allocs (n : N) (w : World) : World :=
  MkWorld (clock w) (grants w) (reads w) (allocs w + n) (out w).

Definition tick_clock (w : World) : World := add_reads 1 w.

Definition tick_alloc (w : World) : World := add_allocs 1 w.

Definition put_line (line : string) (w : World) : World :=
  MkWorld (clock w) (grants w) (reads w) (allocs w) (out w ++ [line]).

(** The exceptions a handler can meet; the program names [std::bad_alloc]. *)
Inductive exception := bad_alloc | other_exception (what : string).

(** How a call ends: with a value, with an exception in flight, by leaving
    the behaviour the language defines, or (for the model of a loop) with the
    fuel used up. *)
Inductive Outcome (A : Type) :=
| Ok (a : A)
| Throw (e : exception)
| Undefined
| OutOfFuel.

Arguments Ok {A} _.
Arguments Throw {A} _.
Arguments Undefined {A}.
Arguments OutOfFuel {A}.

Definition M (A : Type) : Type := World → Outcome A * World.

Definition ret {A} (a : A) : M A := λ w, (Ok a, w).

Definition bind {A B} (c : M A) (k : A → M B) : M B := λ w,
  match c w with
  | (Ok a, w') => k a w'
  | (Throw e, w') => (Throw e, w')
  | (Undefined, w') => (Undefined, w')
  | (OutOfFuel, w') => (OutOfFuel, w')
  end.

Definition undefined {A} : M A := λ w, (Undefined, w).

Definition out_of_fuel {A} : M A := λ w, (OutOfFuel, w).

(** [try { c } catch (std::bad_alloc &) { h }]: only [std::bad_alloc] is
    caught, anything else stays in flight. *)
Definition try_catch_bad_alloc {A} (c h : M A) : M A := λ w,
  match c w with
  | (Throw bad_alloc, w') => h w'
  | r => r
  end.

Declare Scope cpp_scope.
Delimit Scope cpp_scope with cpp.
Bind Scope cpp_scope with M.

Notation "'do' x <- c ; k" := (bind c (λ x, k))
  (at level 10, x name, c at level 100, k at level 200,
   format "'[v' 'do'  x  <-  c ; '/' k ']'") : cpp_scope.
Notation "'do_' c ; k" := (bind c (λ _, k))
  (at level 10, c at level 100, k at level 200,
   format "'[v' 'do_'  c ; '/' k ']'") : cpp_scope.

Open Scope cpp_scope.

(** [std::chrono::high_resolution_clock::now()]. *)
Definition now : M Z := λ w, (Ok (clock w (reads w)), tick_clock w).

(** A container asks the allocator for [n] bytes; a container that needs
    no storage asks for nothing. *)
Definition allocate (n : N) : M unit := λ w,
  if decide (n = 0) then (Ok (), w)
  else if grants w (allocs w) n then (Ok (), tick_alloc w)
  else (Throw bad_alloc, tick_alloc w).

(** [v.reserve(count)] on an empty [std::vector] of elements of
    [element_size] bytes. *)
Definition reserve (count element_size : N) : M unit :=
  allocate (count * element_size).

Definition sizeof_nanoseconds : N := 8.

Definition sizeof_vector : N := 24.

(** [std::vector<std::byte>(buffer, buffer + length)]: storage for [length]
    bytes, then a copy of the range. *)
Definition vector_from_range (buffer : list byte) (length : N)
  : M (list byte) :=
  do_ allocate length;
  ret (take (N.to_nat length) buffer).

(** [std::cout << ... << std::endl]. *)
Definition print_line (line : string) : M unit := λ w, (Ok (), put_line line w).

(** De-optimization trick from Google Benchmark: an empty [asm volatile]
    statement, with no effect on the state of the program. *)
Definition DoNotOptimize {A} (value : A) : M unit := ret ().

(** ** The transformation *)

(** [std::variant<StackBuffer<TSize>, std::vector<std::byte>>]. *)
Inductive variant (TSize : N) :=
| in_StackBuffer (b : StackBuffer.t TSize)
| in_vector (v : list byte).

Arguments in_StackBuffer {TSize} _.
Arguments in_vector {TSize} _.

(** Transforms the input buffer into either std::array or std::vector
    depending on the template parameters.  The [StackBuffer] temporary is
    moved into the returned variant. *)
Definition Transform (TSize : N) (TReturnMethod : ReturnMethod)
    (buffer : list byte) (length : N) : M (variant TSize) :=
  match TReturnMethod with
  | Array =>
      ret (in_StackBuffer
             (StackBuffer.move_ctor (StackBuffer.ctor TSize buffer length)))
  | Vector =>
      do v <- vector_from_range buffer length;
      ret (in_vector v)
  end.

(** Adds a try-catch block to the byte array transformation depending on the
    TExceptionHandling template parameter. *)
Definition TryTransform (TSize : N) (TReturnMethod : ReturnMethod)
    (TExceptionHandling : ExceptionHandling)
    (buffer : list byte) (length : N) : M (variant TSize) :=
  match TExceptionHandling with
  | Include =>
      try_catch_bad_alloc (Transform TSize TReturnMethod buffer length)
                          (ret (in_vector []))
  | Omit => Transform TSize TReturnMethod buffer length
  end.

(** [for (int i = 0; i < n; ++i) body], for a body that does not use [i]. *)
Fixpoint for_times (n : nat) (body : M unit) : M unit :=
  match n with
  | O => ret ()
  | S n' => do_ body; for_times n' body
  end.

Definition scaling : Z := 10000.

(** Executes multiple byte buffer into requested data type transformations
    in a loop to increase processing time. *)
Definition TryMultipleTransforms (TSize : N) (TReturnMethod : ReturnMethod)
    (TExceptionHandling : ExceptionHandling)
    (buffer : list byte) (length : N) : M Z :=
  do_ for_times (Z.to_nat scaling)
        (do r <- TryTransform TSize TReturnMethod TExceptionHandling
                   buffer length;
         DoNotOptimize r);
  ret scaling.

(** ** The trial runner *)

(** [std::sort] on a vector of durations: the ascending rearrangement. *)
Definition sort (l : list Z) : list Z := merge_sort Z.le l.

(** [v[i]] on a [std::vector]: reading outside the vector is undefined. *)
Definition at_index (v : list Z) (i : N) : M Z :=
  match v !! N.to_nat i with
  | Some x => ret x
  | None => undefined
  end.

(** A difference of two 64-bit counts, as the 64-bit two's complement
    subtraction gives it. *)
Definition wrap64 (z : Z) : Z := ((z + 2 ^ 63) mod 2 ^ 64 - 2 ^ 63)%Z.

(** The loop [while (vecSamples.size() < 1000) { ... }] of
    [MeasureTransform]; [fuel] bounds the number of turns the model takes. *)
Fixpoint collect_samples (fuel : nat) (TSize : N)
    (TReturnMethod : ReturnMethod) (TExceptionHandling : ExceptionHandling)
    (vecData : list byte) (vecSamples : list Z) : M (list Z) :=
  if decide (N.of_nat (length vecSamples) < 1000) then
    match fuel with
    | O => out_of_fuel
    | S fuel' =>
        do tpStart <- now;
        do scaling <- TryMultipleTransforms TSize TReturnMethod
                        TExceptionHandling vecData
                        (N.of_nat (length vecData));
        do tpEnd <- now;
        let nanoseconds := wrap64 (tpEnd - tpStart) in
        collect_samples fuel' TSize TReturnMethod TExceptionHandling vecData
                        (vecSamples ++ [Z.quot nanoseconds scaling])
    end
  else ret vecSamples.

Definition MeasureTransform (fuel : nat) (TSize : N)
    (TReturnMethod : ReturnMethod) (TExceptionHandling : ExceptionHandling)
    (vecData : list byte) : M (Z * bool) :=
  do_ reserve 40000 sizeof_nanoseconds;
  do vecSamples <- collect_samples fuel TSize TReturnMethod
                     TExceptionHandling vecData [];
  let vecSamples := sort vecSamples in
  do median <- at_index vecSamples (N.of_nat (length vecSamples) / 2);
  ret (median, bool_decide (TReturnMethod = Vector)).

(** ** Reporting *)

Definition report_line (data_size TSize : N) (duration : Z) (is_vector : bool)
    (exceptions : N) : string :=
  "Data: " +:+ pretty data_size +:+ ", Buffer: " +:+ pretty TSize +:+
  ", Duration:" +:+ pretty duration +:+ " ns, Vector: " +:+
  (if is_vector then "1" else "0") +:+ ", Exceptions: " +:+ pretty exceptions.

(** Executes a test and reports the results to the console. *)
Definition MeasureAndReport (fuel : nat) (TSize : N)
    (TReturnMethod : ReturnMethod) (TExceptionHandling : ExceptionHandling)
    (vecData : list byte) : M unit :=
  if decide (TSize < N.of_nat (length vecData)) then ret ()
  else
    do testResult <- MeasureTransform fuel TSize TReturnMethod
                       TExceptionHandling vecData;
    print_line (report_line (N.of_nat (length vecData)) TSize
                            (fst testResult) (snd testResult)
                            (ExceptionHandling_to_uint32 TExceptionHandling)).

(** ** Test data *)

(** [static_cast<std::byte>(x)] for an [int]: the value modulo 256. *)
Definition to_byte (x : Z) : byte :=
  default x00 (Byte.of_N (Z.to_N (x mod 256))).

(** The loop [while (vecData.size() < length) vecData.push_back(...)] of
    [GenerateData].  [uniform_dist k] is the [k]-th value that
    [uniform_dist(engine)] yields in this call, and [drawn] counts the values
    taken so far; [fuel] bounds the number of turns the model takes. *)
Fixpoint fill_data (fuel : nat) (uniform_dist : N → Z) (length : N)
    (drawn : N) (vecData : list byte) : M (list byte) :=
  if decide (N.of_nat (List.length vecData) < length) then
    match fuel with
    | O => out_of_fuel
    | S fuel' =>
        fill_data fuel' uniform_dist length (drawn + 1)
                  (vecData ++ [to_byte (uniform_dist drawn)])
    end
  else ret vecData.

(** Generates test data.  The random device, the engine seeded from it and
    the distribution over 0..255 are local to the call; together they are the
    stream [uniform_dist] of this call.  The vector is a list; its
    reservation is the request that [GenerateData_reserving] adds. *)
Definition GenerateData (fuel : nat) (uniform_dist : N → Z) (length : N)
  : M (list byte) :=
  fill_data fuel uniform_dist length 0 [].

(** [GenerateData] with its [vecData.reserve(length)] as the request to the
    allocator that it is, the way [main] calls it. *)
Definition GenerateData_reserving (fuel : nat) (uniform_dist : N → Z)
    (length : N) : M (list byte) :=
  do_ reserve length 1;
  GenerateData fuel uniform_dist length.

(** ** The program *)


(** The same loop with the reservation of every call of [GenerateData]. *)
Fixpoint generate_test_vectors_reserving (fuel : nat) (entropy : N → N → Z)
    (s : N) (test_vectors : list (list byte)) : M (list (list byte)) :=
  if decide (s <= 32) then
    match fuel with
    | O => out_of_fuel
    | S fuel' =>
        do v <- GenerateData_reserving fuel
                  (entropy (N.of_nat (List.length test_vectors))) (s * s);
        generate_test_vectors_reserving fuel' entropy (s + 1)
                                        (test_vectors ++ [v])
    end
  else ret test_vectors.

(** The body of the loop over the test vectors: run test with different
    buffer sizes. *)
Definition run_benchmarks (fuel : nat) (test_vector : list byte) : M unit :=
  do_ MeasureAndReport fuel 1 Array Include test_vector;
  do_ MeasureAndReport fuel 1 Vector Include test_vector;
  do_ MeasureAndReport fuel 4 Array Include test_vector;
  do_ MeasureAndReport fuel 4 Vector Include test_vector;
  do_ MeasureAndReport fuel 10 Array Include test_vector;
  do_ MeasureAndReport fuel 10 Vector Include test_vector;
  do_ MeasureAndReport fuel 64 Array Include test_vector;
  do_ MeasureAndReport fuel 64 Vector Include test_vector;
  do_ MeasureAndReport fuel 64 Array Omit test_vector;
  do_ MeasureAndReport fuel 64 Vector Omit test_vector;
  do_ MeasureAndReport fuel 128 Array Include test_vector;
  do_ MeasureAndReport fuel 128 Vector Include test_vector;
  do_ MeasureAndReport fuel 256 Array Include test_vector;
  do_ MeasureAndReport fuel 256 Vector Include test_vector;
  do_ MeasureAndReport fuel 512 Array Include test_vector;
  do_ MeasureAndReport fuel 512 Vector Include test_vector;
  do_ MeasureAndReport fuel 1024 Array Include test_vector;
  do_ MeasureAndReport fuel 1024 Vector Include test_vector;
  do_ MeasureAndReport fuel 2048 Array Include test_vector;
  do_ MeasureAndReport fuel 2048 Vector Include test_vector;
  do_ MeasureAndReport fuel 4096 Array Include test_vector;
  MeasureAndReport fuel 4096 Vector Include test_vector.

(** [for (const std::vector<std::byte> &test_vector: test_vectors)]. *)
Fixpoint for_each_vector (fuel : nat) (test_vectors : list (list byte))
  : M unit :=
  match test_vectors with
  | [] => ret ()
  | test_vector :: rest =>
      do_ run_benchmarks fuel test_vector;
      for_each_vector fuel rest
  end.

(** [int main()]: an exception that leaves it ends the program. *)
Definition main (fuel : nat) (entropy : N → N → Z) : M Z :=
  do_ reserve 1000 sizeof_vector;
  do test_vectors <- generate_test_vectors_reserving fuel entropy 1 [];
  do_ for_each_vector fuel test_vectors;
  ret 0%Z.

(** ** Vocabulary of the statements *)

(** No [std::bad_alloc] can leave [TryTransform]: nothing is allocated
    (the array strategy, or an empty input), or the handler is in place, or
    the allocator serves every request of [n] bytes. *)
Definition never_escapes (TReturnMethod : ReturnMethod)
    (TExceptionHandling : ExceptionHandling) (n : N) (w : World) : Prop :=
  TReturnMethod = Array ∨ TExceptionHandling = Include ∨ n = 0 ∨
  ∀ k, grants w k n = true.

(** The next request to the allocator is the reservation of the sample
    vector, and it is served. *)
Definition samples_reserved (w : World) : Prop :=
  grants w (allocs w) (40000 * sizeof_nanoseconds) = true.

(** The number of requests one call of [Transform] makes to the allocator
    for an input of [n] bytes. *)
Definition requests (TReturnMethod : ReturnMethod) (n : N) : N :=
  match TReturnMethod with
  | Array => 0
  | Vector => if decide (n = 0) then 0 else 1
  end.

(** The sample of the [k]-th trial started in world [w]: the trial reads the
    clock twice, once before and once after its 10000 calls. *)
Definition sample_at (w : World) (k : N) : Z :=
  Z.quot (wrap64 (clock w (reads w + 2 * k + 1) - clock w (reads w + 2 * k)))
         scaling.

(** The samples of the first [n] trials started in world [w], in the order
    in which they are taken. *)
Definition samples_from (w : World) (n : nat) : list Z :=
  (λ k : nat, sample_at w (N.of_nat k)) <$> seq 0 n.

(** The world after [n] trials on an input of [L] bytes, started in world
    [w]. *)
Definition after_trials (TReturnMethod : ReturnMethod) (L n : N) (w : World)
  : World :=
  add_allocs (n * 10000 * requests TReturnMethod L) (add_reads (2 * n) w).

(** The clock never runs backwards, and two consecutive readings are never
    further apart than a 64-bit count can tell. *)
Definition steady (w : World) : Prop :=
  ∀ k, (clock w k <= clock w (k + 1) < clock w k + 2 ^ 63)%Z.

(** The allocator of the world serves every request. *)
Definition all_served (w : World) : Prop := ∀ k n, grants w k n = true.

(** The allocator of the world refuses every request. *)
Definition all_refused (w : World) : Prop := ∀ k n, grants w k n = false.

(** The allocator serves the harness and nothing else: the next 33 requests
    (the reservation of [test_vectors] and of the 32 test vectors) and every
    reservation of a sample vector are served, every other request is
    refused. *)
Definition serves_harness_only (w : World) : Prop :=
  (∀ k n, k <= allocs w + 32 → grants w k n = true) ∧
  (∀ k, grants w k (40000 * sizeof_nanoseconds) = true) ∧
  (∀ k n, allocs w + 32 < k → n ≠ 40000 * sizeof_nanoseconds →
          grants w k n = false).

(** A benchmark case of [main]: capacity, return strategy and exception
    handling; with the input size it is a point of the report. *)
Definition config : Type := N * ReturnMethod * ExceptionHandling.

Definition point : Type := N * config.

(** The cases of [main], in the order of its calls. *)
Definition matrix : list config :=
  [ (1, Array, Include); (1, Vector, Include);
    (4, Array, Include); (4, Vector, Include);
    (10, Array, Include); (10, Vector, Include);
    (64, Array, Include); (64, Vector, Include);
    (64, Array, Omit); (64, Vector, Omit);
    (128, Array, Include); (128, Vector, Include);
    (256, Array, Include); (256, Vector, Include);
    (512, Array, Include); (512, Vector, Include);
    (1024, Array, Include); (1024, Vector, Include);
    (2048, Array, Include); (2048, Vector, Include);
    (4096, Array, Include); (4096, Vector, Include) ].

(** A list of cases run one after the other on one test vector. *)
Fixpoint run_configs (fuel : nat) (test_vector : list byte)
    (cs : list config) : M unit :=
  match cs with
  | [] => ret ()
  | (TSize, m, e) :: cs' =>
      do_ MeasureAndReport fuel TSize m e test_vector;
      run_configs fuel test_vector cs'
  end.

(** The cases that are not skipped for an input of [L] bytes. *)
Definition fitting (L : N) (cs : list config) : list config :=
  filter (λ c : config, L <= c.1.1) cs.

Definition points_for (L : N) (cs : list config) : list point :=
  (λ c, (L, c)) <$> fitting L cs.

(** The points [main] reports: for [s] from 1 to 32 and an input of [s * s]
    bytes, the cases of the matrix that are not skipped. *)
Definition reported_points : list point :=
  concat ((λ s : nat, points_for (N.of_nat s * N.of_nat s) matrix)
          <$> seq 1 32).

(** [line] is the report of point [p], for some duration. *)
Definition reports (p : point) (line : string) : Prop :=
  ∃ duration : Z,
    line = report_line p.1 p.2.1.1 duration
                       (bool_decide (p.2.1.2 = Vector))
                       (ExceptionHandling_to_uint32 p.2.2).

(** ** Concrete inputs used in the examples *)

Definition nine_bytes : list byte :=
  [x01; x02; x03; x04; x05; x06; x07; x08; x09].

(** A short client of [StackBuffer<4>]: two objects built from byte ranges,
    a copy of the first, a move of the second and a copy of the copy. *)
Definition client_ops : list op :=
  [ Construct 1%positive nine_bytes 9;
    Construct 2%positive [xaa; xbb] 2;
    CopyConstruct 3%positive 1%positive;
    MoveConstruct 4%positive 2%positive;
    CopyConstruct 5%positive 3%positive ].

(** The same client going on with an assignment between two of the
    objects. *)
Definition assigning_ops : list op :=
  client_ops ++ [CopyAssign 1%positive 2%positive].

(** A clock for which the [k]-th trial lasts [10000 * (7919 k mod 1000) +
    1234] nanoseconds: the thousand samples are the numbers 0 to 999 in a
    scrambled order. *)
Definition scrambled_clock (r : N) : Z :=
  let k := Z.of_N (r / 2) in
  (20000000 * k
   + (if N.odd r then 10000 * ((7919 * k) mod 1000) + 1234 else 0))%Z.

(** A world whose allocator serves every request. *)
Definition serving_world : World :=
  MkWorld scrambled_clock (λ _ _, true) 0 0 [].

(** A world whose allocator is exhausted. *)
Definition refusing_world : World :=
  MkWorld scrambled_clock (λ _ _, false) 0 0 [].

(** A world whose allocator serves the reservation of the sample vector and
    nothing else. *)
Definition samples_only_world : World :=
  MkWorld scrambled_clock
          (λ _ n, bool_decide (n = 40000 * sizeof_nanoseconds)) 0 0 [].

(** A world whose allocator serves the harness and nothing else. *)
Definition harness_only_world : World :=
  MkWorld scrambled_clock
          (λ k n, bool_decide (k <= 32 ∨ n = 40000 * sizeof_nanoseconds))
          0 0 [].

(** * Properties *)

(** ** [std::memcpy] *)

Section Memcpy.

Implicit Types dest src : list cell.

Lemma length_memcpy dest src n :
  n <= N.of_nat (length src) → n <= N.of_nat (length dest) →
  length (memcpy dest src n) = length dest.
Proof.
  intros Hs Hd. unfold memcpy.
  rewrite length_app, length_take, length_drop. lia.
Qed.

Lemma take_memcpy dest src n :
  n <= N.of_nat (length src) →
  take (N.to_nat n) (memcpy dest src n) = take (N.to_nat n) src.
Proof.
  intros Hs. unfold memcpy.
  rewrite take_app_le by (rewrite length_take; lia).
  rewrite take_take. f_equal. lia.
Qed.

Lemma drop_memcpy dest src n :
  n <= N.of_nat (length src) →
  drop (N.to_nat n) (memcpy dest src n) = drop (N.to_nat n) dest.
Proof.
  intros Hs. unfold memcpy.
  rewrite drop_app_length'; [done|]. rewrite length_take. lia.
Qed.

Lemma length_uninit TSize : N.of_nat (length (uninit TSize)) = TSize.
Proof. unfold uninit. rewrite length_replicate. lia. Qed.

End Memcpy.

(** ** The constructors and the assignment body *)

Module StackBufferFacts.

Import StackBuffer.

Section Facts.

Context {TSize : N}.

Implicit Types b s t : StackBuffer.t TSize.

Lemma contents_ctor buffer len :
  N.min TSize len <= N.of_nat (length buffer) →
  contents (ctor TSize buffer len)
  = Some <$> take (N.to_nat (N.min TSize len)) buffer.
Proof.
  intros Hlen. unfold contents, ctor. simpl.
  rewrite take_memcpy by (rewrite length_fmap; lia).
  by rewrite fmap_take.
Qed.

Lemma wf_ctor buffer len :
  N.min TSize len <= N.of_nat (length buffer) →
  wf (ctor TSize buffer len).
Proof.
  intros Hlen. split; [|split].
  - unfold ctor. simpl. rewrite length_memcpy.
    + apply length_uninit.
    + rewrite length_fmap. lia.
    + rewrite length_uninit. lia.
  - simpl. lia.
  - rewrite contents_ctor by done. apply Forall_fmap, Forall_true. by eexists.
Qed.

(** The constructor stays inside both ranges when the source holds the bytes
    it is asked to copy. *)
Lemma ctor_in_bounds buffer len :
  N.min TSize len <= N.of_nat (length buffer) →
  in_bounds (uninit TSize) (Some <$> buffer) (N.min TSize len).
Proof.
  intros Hlen. split.
  - rewrite length_uninit. lia.
  - by rewrite length_fmap.
Qed.

(** Copying from, or assigning between, buffers that satisfy the invariant
    stays inside both arrays. *)
Lemma copy_ctor_in_bounds s :
  wf s → in_bounds (uninit TSize) (m_data s) (m_length s).
Proof.
  intros (Hd & Hl & _). split.
  - by rewrite length_uninit.
  - by rewrite Hd.
Qed.

Lemma assign_body_in_bounds t s :
  wf t → wf s → in_bounds (m_data t) (m_data s) (m_length s).
Proof.
  intros (Hdt & _ & _) (Hd & Hl & _). split.
  - by rewrite Hdt.
  - by rewrite Hd.
Qed.

Lemma length_contents b : wf b → N.of_nat (length (contents b)) = m_length b.
Proof.
  intros (Hd & Hl & _). unfold contents. rewrite length_take. lia.
Qed.

Lemma move_ctor_eq_copy_ctor s : move_ctor s = copy_ctor s.
Proof. reflexivity. Qed.

Lemma m_length_copy_ctor s : m_length (copy_ctor s) = m_length s.
Proof. reflexivity. Qed.

Lemma contents_copy_ctor s : wf s → contents (copy_ctor s) = contents s.
Proof.
  intros (Hd & Hl & _). unfold contents, copy_ctor. simpl.
  apply take_memcpy. lia.
Qed.

Lemma wf_copy_ctor s : wf s → wf (copy_ctor s).
Proof.
  intros Hs. pose proof Hs as (Hd & Hl & Hw). split; [|split].
  - unfold copy_ctor. simpl. rewrite length_memcpy.
    + apply length_uninit.
    + lia.
    + rewrite length_uninit. lia.
  - simpl. lia.
  - by rewrite contents_copy_ctor.
Qed.

Lemma m_length_assign_body t s : m_length (assign_body t s) = m_length s.
Proof. reflexivity. Qed.

Lemma contents_assign_body t s :
  wf s → contents (assign_body t s) = contents s.
Proof.
  intros (Hd & Hl & _). unfold contents, assign_body. simpl.
  apply take_memcpy. lia.
Qed.

(** The cells of the target beyond the new length keep what they held. *)
Lemma drop_assign_body t s :
  wf s →
  drop (N.to_nat (m_length s)) (m_data (assign_body t s))
  = drop (N.to_nat (m_length s)) (m_data t).
Proof.
  intros (Hd & Hl & _). unfold assign_body. simpl. apply drop_memcpy. lia.
Qed.

Lemma wf_assign_body t s : wf t → wf s → wf (assign_body t s).
Proof.
  intros (Hdt & _ & _) Hs. pose proof Hs as (Hd & Hl & Hw).
  split; [|split].
  - unfold assign_body. simpl. rewrite length_memcpy; lia.
  - simpl. lia.
  - by rewrite contents_assign_body.
Qed.

(** Moving the temporary built by the constructor gives the temporary
    back, cell for cell. *)
Lemma move_ctor_ctor buffer len :
  N.min TSize len <= N.of_nat (length buffer) →
  move_ctor (ctor TSize buffer len) = ctor TSize buffer len.
Proof.
  intros Hlen. unfold move_ctor, ctor. simpl. f_equal.
  unfold memcpy at 1.
  rewrite take_memcpy by (rewrite length_fmap; lia).
  reflexivity.
Qed.

End Facts.

End StackBufferFacts.

(** ** The store *)

Section StoreFacts.

Context {TSize : N}.

Implicit Types σ : gmap addr (StackBuffer.t TSize).

Lemma store_wf_lookup σ a b : store_wf σ → σ !! a = Some b → StackBuffer.wf b.
Proof. intros Hσ Ha. exact (Hσ a b Ha). Qed.

Lemma declare_wf a b σ σ' :
  StackBuffer.wf b → store_wf σ → declare a b σ = Some σ' → store_wf σ'.
Proof.
  intros Hb Hσ. unfold declare. destruct (σ !! a) eqn:Ha; [done|].
  intros [= <-]. by apply map_Forall_insert_2.
Qed.

Lemma move_assign_eq_copy_assign this source σ :
  move_assign this source σ = copy_assign this source σ.
Proof. reflexivity. Qed.

(** No call of an assignment operator returns. *)
Lemma copy_assign_never_returns this source σ :
  (e ← copy_assign this source σ; returned e) = None.
Proof.
  unfold copy_assign.
  destruct (σ !! this) as [t|]; [|done].
  destruct (σ !! source) as [s|]; [|done]. simpl.
  by case_decide.
Qed.

Lemma exec_assignment o σ : is_assignment o = true → exec o σ = None.
Proof.
  destruct o; try discriminate; intros _; simpl.
  - apply copy_assign_never_returns.
  - rewrite move_assign_eq_copy_assign. apply copy_assign_never_returns.
Qed.

(** Every operation that returns preserves the invariant of the store. *)
Lemma exec_wf o σ σ' : store_wf σ → exec o σ = Some σ' → store_wf σ'.
Proof.
  intros Hσ. destruct o as [a buffer len|a source|a source|this source|this source].
  - simpl. case_decide; [|done]. apply declare_wf; [|done].
    by apply StackBufferFacts.wf_ctor.
  - simpl. destruct (σ !! source) as [s|] eqn:Hs; [|done]. simpl.
    apply declare_wf; [|done].
    apply StackBufferFacts.wf_copy_ctor. by eapply store_wf_lookup.
  - simpl. destruct (σ !! source) as [s|] eqn:Hs; [|done]. simpl.
    apply declare_wf; [|done].
    rewrite StackBufferFacts.move_ctor_eq_copy_ctor.
    apply StackBufferFacts.wf_copy_ctor. by eapply store_wf_lookup.
  - by rewrite exec_assignment.
  - by rewrite exec_assignment.
Qed.

Lemma run_wf os σ σ' : store_wf σ → run os σ = Some σ' → store_wf σ'.
Proof.
  revert σ. induction os as [|o os IH]; intros σ Hσ; simpl.
  - by intros [= <-].
  - destruct (exec o σ) as [σ1|] eqn:Ho; [|done]. simpl.
    apply IH. by eapply exec_wf.
Qed.

(** A sequence of operations that reaches a store holds no assignment. *)
Lemma run_no_assignment os σ σ' :
  run os σ = Some σ' → Forall (λ o, is_assignment o = false) os.
Proof.
  revert σ. induction os as [|o os IH]; intros σ; simpl; [by constructor|].
  destruct (exec o σ) as [σ1|] eqn:Ho; [|done]. simpl. intros Hrun.
  constructor; [|by eapply IH].
  destruct (is_assignment o) eqn:Hass; [|done].
  by rewrite exec_assignment in Ho.
Qed.

Lemma copy_assign_distinct this source σ t s :
  σ !! this = Some t → σ !! source = Some s → this ≠ source →
  copy_assign this source σ
  = Some (FlowsOffEnd (<[this := StackBuffer.assign_body t s]> σ)).
Proof.
  intros Ht Hs Hne. unfold copy_assign. rewrite Ht, Hs. simpl.
  by rewrite decide_True.
Qed.

Lemma copy_assign_self a σ b :
  σ !! a = Some b → copy_assign a a σ = Some (FlowsOffEnd σ).
Proof.
  intros Ha. unfold copy_assign. rewrite Ha. simpl.
  rewrite decide_False; [done|]. intros Hne. by apply Hne.
Qed.

End StoreFacts.

(** ** The bounded buffer: claims C1, C6, C7 and C10 *)

(** C1.  For every capacity [TSize] and every source of length [L],
    constructing a [StackBuffer<TSize>] from the source stores [min(TSize, L)]
    as its length, and its contents are the first [min(TSize, L)] bytes of the
    source: the whole source and [L] when [L <= TSize], the first [TSize]
    bytes and [TSize] when [L > TSize]. *)
Theorem ctor_stores_prefix (TSize : N) (source : list byte) :
  let L := N.of_nat (length source) in
  let b := StackBuffer.ctor TSize source L in
  StackBuffer.m_length b = N.min TSize L ∧
  StackBuffer.contents b = Some <$> take (N.to_nat (N.min TSize L)) source ∧
  StackBuffer.m_length b = (if decide (L <= TSize) then L else TSize) ∧
  StackBuffer.contents b
  = Some <$> (if decide (L <= TSize) then source
              else take (N.to_nat TSize) source).
Proof.
  intros L b.
  assert (Hc : StackBuffer.contents b
               = Some <$> take (N.to_nat (N.min TSize L)) source).
  { apply StackBufferFacts.contents_ctor. lia. }
  repeat split; [done| |].
  - case_decide; simpl; lia.
  - rewrite Hc. case_decide.
    + rewrite take_ge; [done|]. lia.
    + do 2 f_equal. lia.
Qed.

(** C6.  For every capacity and source, let [b] be the buffer constructed
    directly from the source.  The copy and the move constructor applied to
    [b] each give a buffer with the length of [b] and, up to that length, the
    bytes of [b], and they give the same buffer.  The statements of the copy
    and of the move assignment of [b] to another object also leave that
    object with the length and the bytes of [b], but then control flows off
    the end of the operator: the assignment does not return, so it gives no
    buffer. *)
Theorem copies_agree_assignments_flow_off_end (TSize : N)
    (source : list byte) (σ : gmap addr (StackBuffer.t TSize))
    (this src : addr) (t : StackBuffer.t TSize) :
  let b := StackBuffer.ctor TSize source (N.of_nat (length source)) in
  σ !! src = Some b → σ !! this = Some t → this ≠ src →
  (StackBuffer.m_length (StackBuffer.copy_ctor b) = StackBuffer.m_length b ∧
   StackBuffer.contents (StackBuffer.copy_ctor b) = StackBuffer.contents b) ∧
  (StackBuffer.m_length (StackBuffer.move_ctor b) = StackBuffer.m_length b ∧
   StackBuffer.contents (StackBuffer.move_ctor b) = StackBuffer.contents b) ∧
  StackBuffer.move_ctor b = StackBuffer.copy_ctor b ∧
  (∃ r : StackBuffer.t TSize,
     copy_assign this src σ = Some (FlowsOffEnd (<[this := r]> σ)) ∧
     move_assign this src σ = Some (FlowsOffEnd (<[this := r]> σ)) ∧
     StackBuffer.m_length r = StackBuffer.m_length b ∧
     StackBuffer.contents r = StackBuffer.contents b) ∧
  exec (CopyAssign this src) σ = None ∧
  exec (MoveAssign this src) σ = None.
Proof.
  intros b Hsrc Hthis Hne.
  assert (Hwf : StackBuffer.wf b) by (apply StackBufferFacts.wf_ctor; lia).
  split; [|split; [|split; [|split; [|split]]]].
  - split; [done|]. by apply StackBufferFacts.contents_copy_ctor.
  - split; [done|]. by apply StackBufferFacts.contents_copy_ctor.
  - done.
  - exists (StackBuffer.assign_body t b). repeat split.
    + by apply copy_assign_distinct.
    + rewrite move_assign_eq_copy_assign. by apply copy_assign_distinct.
    + by apply StackBufferFacts.contents_assign_body.
  - by apply exec_assignment.
  - by apply exec_assignment.
Qed.

Lemma copies_agree_assignments_flow_off_end_witness :
  let b := StackBuffer.ctor 4 nine_bytes 9 in
  let σ : gmap addr (StackBuffer.t 4) :=
    <[1%positive := b]> {[2%positive := StackBuffer.ctor 4 [xaa; xbb] 2]} in
  StackBuffer.contents (StackBuffer.copy_ctor b)
  = [Some x01; Some x02; Some x03; Some x04] ∧
  (∃ r : StackBuffer.t 4,
     copy_assign 2%positive 1%positive σ
     = Some (FlowsOffEnd (<[2%positive := r]> σ))) ∧
  exec (CopyAssign 2%positive 1%positive) σ = None.
Proof.
  intros b σ.
  destruct (copies_agree_assignments_flow_off_end 4 nine_bytes σ 2%positive
              1%positive (StackBuffer.ctor 4 [xaa; xbb] 2))
    as ([_ Hc] & _ & _ & (r & Ha & _) & He & _).
  - reflexivity.
  - reflexivity.
  - discriminate.
  - split; [exact Hc|]. split; [by exists r|exact He].
Defined.

(** C7.  In every store reached from the empty one by operations of the type
    that return, every buffer has a length at most its capacity.  The
    operations that return are the construction from a byte range and the
    copy and move construction: a sequence with a copy or move assignment
    reaches no store, because the assignment operators do not return. *)
Theorem length_le_capacity (TSize : N) (os : list op)
    (σ : gmap addr (StackBuffer.t TSize)) (a : addr)
    (b : StackBuffer.t TSize) :
  run os ∅ = Some σ → σ !! a = Some b →
  StackBuffer.m_length b <= TSize ∧
  Forall (λ o, is_assignment o = false) os.
Proof.
  intros Hrun Ha.
  assert (Hσ : store_wf σ).
  { eapply run_wf; [|exact Hrun]. apply map_Forall_empty. }
  split; [|by eapply run_no_assignment].
  by destruct (store_wf_lookup _ _ _ Hσ Ha) as (_ & Hl & _).
Qed.

Lemma length_le_capacity_witness :
  ∃ (σ : gmap addr (StackBuffer.t 4)) (b : StackBuffer.t 4),
    run client_ops ∅ = Some σ ∧ σ !! 5%positive = Some b ∧
    StackBuffer.m_length b <= 4.
Proof.
  eexists _, _. split; [vm_compute; reflexivity|].
  split; [vm_compute; reflexivity|].
  eapply (length_le_capacity 4 client_ops _ 5%positive).
  - vm_compute. reflexivity.
  - vm_compute. reflexivity.
Defined.

(** The client that goes on with an assignment reaches no store. *)
Example assigning_ops_undefined :
  run (TSize := 4) assigning_ops ∅ = None.
Proof. vm_compute. reflexivity. Qed.

(** C10.  The statements of a self-assignment, by copy assignment or by move
    assignment, change nothing: the guard [this != &source] skips the body
    and the store at the closing brace is the store before the call.  But
    the call does not return: control flows off the end of the operator. *)
Theorem self_assignment_flows_off_end (TSize : N)
    (σ : gmap addr (StackBuffer.t TSize)) (a : addr)
    (b : StackBuffer.t TSize) :
  σ !! a = Some b →
  copy_assign a a σ = Some (FlowsOffEnd σ) ∧
  move_assign a a σ = Some (FlowsOffEnd σ) ∧
  exec (CopyAssign a a) σ = None ∧
  exec (MoveAssign a a) σ = None.
Proof.
  intros Ha. split; [|split; [|split]].
  - by eapply copy_assign_self.
  - rewrite move_assign_eq_copy_assign. by eapply copy_assign_self.
  - by apply exec_assignment.
  - by apply exec_assignment.
Qed.

Lemma self_assignment_flows_off_end_witness :
  let σ : gmap addr (StackBuffer.t 4) :=
    {[1%positive := StackBuffer.ctor 4 nine_bytes 9]} in
  copy_assign 1%positive 1%positive σ = Some (FlowsOffEnd σ) ∧
  exec (CopyAssign 1%positive 1%positive) σ = None.
Proof.
  intros σ.
  destruct (self_assignment_flows_off_end 4 σ 1%positive
              (StackBuffer.ctor 4 nine_bytes 9)) as (Hc & _ & He & _).
  - reflexivity.
  - split; [exact Hc|exact He].
Defined.

(** ** The environment *)

Lemma World_eq w c g r a o :
  clock w = c → grants w = g → reads w = r → allocs w = a → out w = o →
  w = MkWorld c g r a o.
Proof. destruct w; simpl; by intros -> -> -> -> ->. Qed.

Lemma add_allocs_0 w : add_allocs 0 w = w.
Proof. symmetry. apply World_eq; simpl; try done. lia. Qed.

Lemma add_allocs_add a b w :
  add_allocs a (add_allocs b w) = add_allocs (b + a) w.
Proof. unfold add_allocs. simpl. f_equal. lia. Qed.

Lemma never_escapes_add_allocs m e n k w :
  never_escapes m e n w → never_escapes m e n (add_allocs k w).
Proof. done. Qed.

Lemma never_escapes_add_reads m e n k w :
  never_escapes m e n w → never_escapes m e n (add_reads k w).
Proof. done. Qed.

Lemma allocate_0 w : allocate 0 w = (Ok (), w).
Proof. reflexivity. Qed.

Lemma allocate_served n w :
  n ≠ 0 → grants w (allocs w) n = true → allocate n w = (Ok (), tick_alloc w).
Proof.
  intros Hn Hg. unfold allocate. rewrite decide_False by done. by rewrite Hg.
Qed.

Lemma allocate_refused n w :
  n ≠ 0 → grants w (allocs w) n = false →
  allocate n w = (Throw bad_alloc, tick_alloc w).
Proof.
  intros Hn Hg. unfold allocate. rewrite decide_False by done. by rewrite Hg.
Qed.

Lemma requests_Vector_0 : requests Vector 0 = 0.
Proof. reflexivity. Qed.

Lemma requests_Vector_pos n : n ≠ 0 → requests Vector n = 1.
Proof. intros Hn. unfold requests. by rewrite decide_False. Qed.

(** ** [Transform] and [TryTransform] *)

Section TransformFacts.

Context (TSize : N) (buffer : list byte) (length : N).

Lemma Transform_Array w :
  Transform TSize Array buffer length w
  = (Ok (in_StackBuffer
           (StackBuffer.move_ctor (StackBuffer.ctor TSize buffer length))), w).
Proof. reflexivity. Qed.

(** An empty range needs no storage. *)
Lemma Transform_Vector_empty w :
  length = 0 →
  Transform TSize Vector buffer length w = (Ok (in_vector []), w).
Proof. intros ->. reflexivity. Qed.

Lemma Transform_Vector_served w :
  length ≠ 0 → grants w (allocs w) length = true →
  Transform TSize Vector buffer length w
  = (Ok (in_vector (take (N.to_nat length) buffer)), tick_alloc w).
Proof.
  intros Hn Hg. unfold Transform, vector_from_range, bind.
  by rewrite allocate_served.
Qed.

Lemma Transform_Vector_refused w :
  length ≠ 0 → grants w (allocs w) length = false →
  Transform TSize Vector buffer length w = (Throw bad_alloc, tick_alloc w).
Proof.
  intros Hn Hg. unfold Transform, vector_from_range, bind.
  by rewrite allocate_refused.
Qed.

(** With the handler in place the call always returns. *)
Lemma TryTransform_Include_Vector w :
  TryTransform TSize Vector Include buffer length w
  = (Ok (in_vector (if decide (length = 0) then []
                    else if grants w (allocs w) length
                         then take (N.to_nat length) buffer else [])),
     add_allocs (requests Vector length) w).
Proof.
  unfold TryTransform, try_catch_bad_alloc.
  destruct (decide (length = 0)) as [Hz|Hnz].
  - rewrite Transform_Vector_empty by done. subst length.
    by rewrite requests_Vector_0, add_allocs_0.
  - rewrite requests_Vector_pos by done.
    destruct (grants w (allocs w) length) eqn:Hg.
    + by rewrite Transform_Vector_served.
    + by rewrite Transform_Vector_refused.
Qed.

Lemma TryTransform_Array e w :
  TryTransform TSize Array e buffer length w
  = Transform TSize Array buffer length w.
Proof. by destruct e. Qed.

(** One turn of the loop of [TryMultipleTransforms]. *)
Lemma TryTransform_turn m e w :
  never_escapes m e length w →
  (do r <- TryTransform TSize m e buffer length; DoNotOptimize r) w
  = (Ok (), add_allocs (requests m length) w).
Proof.
  intros Hne. unfold bind. destruct m.
  - rewrite TryTransform_Array, Transform_Array. simpl.
    by rewrite add_allocs_0.
  - destruct e.
    + destruct Hne as [?|[?|[Hz|Hg]]]; [done..| |].
      * unfold TryTransform. rewrite Transform_Vector_empty by done.
        subst length. by rewrite requests_Vector_0, add_allocs_0.
      * unfold TryTransform. destruct (decide (length = 0)) as [Hz|Hnz].
        -- rewrite Transform_Vector_empty by done.
           subst length. by rewrite requests_Vector_0, add_allocs_0.
        -- rewrite Transform_Vector_served by done.
           by rewrite requests_Vector_pos.
    + by rewrite TryTransform_Include_Vector.
Qed.

Lemma for_times_TryTransform m e n w :
  never_escapes m e length w →
  for_times n (do r <- TryTransform TSize m e buffer length; DoNotOptimize r) w
  = (Ok (), add_allocs (N.of_nat n * requests m length) w).
Proof.
  revert w. induction n as [|n IH]; intros w Hne.
  - simpl. unfold ret. by rewrite add_allocs_0.
  - cbn [for_times]. unfold bind at 1. rewrite TryTransform_turn by done.
    rewrite IH by done. rewrite add_allocs_add. do 2 f_equal. lia.
Qed.

Lemma TryMultipleTransforms_returns m e w :
  never_escapes m e length w →
  TryMultipleTransforms TSize m e buffer length w
  = (Ok scaling, add_allocs (10000 * requests m length) w).
Proof.
  intros Hne. unfold TryMultipleTransforms, bind at 1.
  rewrite for_times_TryTransform by done. unfold ret. do 3 f_equal.
Qed.

(** Without the handler, the first refused request ends the loop. *)
Lemma TryMultipleTransforms_throws w :
  length ≠ 0 → grants w (allocs w) length = false →
  TryMultipleTransforms TSize Vector Omit buffer length w
  = (Throw bad_alloc, tick_alloc w).
Proof.
  intros Hn Hg. unfold TryMultipleTransforms, bind at 1.
  change (Z.to_nat scaling) with (S (Z.to_nat 9999)).
  cbn [for_times]. unfold bind at 1. unfold bind at 1.
  unfold TryTransform. by rewrite Transform_Vector_refused.
Qed.

End TransformFacts.

(** ** The trial runner *)

Section TrialFacts.

Context (TSize : N) (m : ReturnMethod) (e : ExceptionHandling).
Context (vecData : list byte).

Lemma length_samples_from w n : length (samples_from w n) = n.
Proof. unfold samples_from. by rewrite length_fmap, length_seq. Qed.

Lemma sample_at_shift w w' k :
  clock w' = clock w → reads w' = (reads w + 2)%N →
  sample_at w' k = sample_at w (N.succ k).
Proof.
  intros Hc Hr. unfold sample_at. rewrite Hc, Hr.
  replace (reads w + 2 + 2 * k)%N with (reads w + 2 * N.succ k)%N by lia.
  reflexivity.
Qed.

Lemma samples_from_S w w' n :
  clock w' = clock w → reads w' = (reads w + 2)%N →
  samples_from w (S n) = sample_at w 0 :: samples_from w' n.
Proof.
  intros Hc Hr. unfold samples_from. cbn [seq fmap list_fmap]. f_equal.
  rewrite <- fmap_S_seq, <- list_fmap_compose.
  apply list_fmap_ext. intros _ k _. simpl.
  rewrite (sample_at_shift w w') by done. f_equal. lia.
Qed.

Lemma after_trials_S L w n :
  after_trials m L n (add_reads 1 (add_allocs (10000 * requests m L)
                                              (add_reads 1 w)))
  = after_trials m L (N.succ n) w.
Proof.
  unfold after_trials, add_allocs, add_reads. simpl. f_equal; lia.
Qed.

Lemma after_trials_0 L w : after_trials m L 0 w = w.
Proof.
  destruct w. unfold after_trials, add_allocs, add_reads. simpl. f_equal; lia.
Qed.

(** The loop of [MeasureTransform] runs one trial for every sample that is
    missing, and fuel for that many turns is enough. *)
Lemma collect_samples_spec n fuel vecSamples w :
  never_escapes m e (N.of_nat (length vecData)) w →
  (length vecSamples + n = 1000)%nat → (n ≤ fuel)%nat →
  collect_samples fuel TSize m e vecData vecSamples w
  = (Ok (vecSamples ++ samples_from w n),
     after_trials m (N.of_nat (length vecData)) (N.of_nat n) w).
Proof.
  revert fuel vecSamples w.
  induction n as [|n IH]; intros fuel vecSamples w Hne Hlen Hfuel.
  - assert (Hstop : ¬ (N.of_nat (length vecSamples) < 1000)%N) by lia.
    destruct fuel; cbn [collect_samples]; rewrite (decide_False _ _ Hstop).
    all: unfold ret, samples_from; simpl;
      by rewrite app_nil_r, after_trials_0.
  - assert (Hgo : (N.of_nat (length vecSamples) < 1000)%N) by lia.
    destruct fuel as [|fuel]; [lia|].
    cbn [collect_samples]. rewrite (decide_True _ _ Hgo).
    unfold bind at 1. unfold now at 1. cbv beta iota.
    unfold bind at 1.
    rewrite TryMultipleTransforms_returns by done.
    unfold bind at 1. unfold now at 1. cbv beta iota.
    rewrite IH.
    + rewrite <- app_assoc. cbn [app].
      rewrite (samples_from_S w
                 (tick_clock
                    (add_allocs
                       (10000 * requests m (N.of_nat (length vecData)))
                       (tick_clock w))));
        [|done|simpl; lia].
      unfold tick_clock. rewrite after_trials_S.
      replace (N.succ (N.of_nat n)) with (N.of_nat (S n)) by lia.
      do 4 f_equal. unfold sample_at. simpl.
      do 4 f_equal; f_equal; lia.
    + done.
    + rewrite length_app. simpl. lia.
    + lia.
Qed.

Lemma length_sort l : length (sort l) = length l.
Proof. unfold sort. by rewrite merge_sort_Permutation. Qed.

Lemma Sorted_sort l : Sorted Z.le (sort l).
Proof. apply (Sorted_merge_sort Z.le). Qed.

Lemma sort_Permutation l : sort l ≡ₚ l.
Proof. apply merge_sort_Permutation. Qed.

(** There is one ascending rearrangement of a list of durations: the result
    of [std::sort] does not depend on the sorting algorithm. *)
Lemma sort_unique l l' : Sorted Z.le l' → l' ≡ₚ l → l' = sort l.
Proof.
  intros Hs Hp. apply (Sorted_unique Z.le); [done|apply Sorted_sort|].
  by rewrite sort_Permutation.
Qed.

Lemma reserve_samples_served w :
  samples_reserved w →
  reserve 40000 sizeof_nanoseconds w = (Ok (), tick_alloc w).
Proof. intros Hr. unfold reserve. by apply allocate_served. Qed.

Lemma reserve_samples_refused w :
  ¬ samples_reserved w →
  reserve 40000 sizeof_nanoseconds w = (Throw bad_alloc, tick_alloc w).
Proof.
  intros Hr. unfold reserve. apply allocate_refused; [done|].
  unfold samples_reserved in Hr. by destruct (grants w _ _).
Qed.

Lemma MeasureTransform_spec fuel w :
  samples_reserved w →
  never_escapes m e (N.of_nat (length vecData)) w → (1000 ≤ fuel)%nat →
  ∃ median,
    sort (samples_from w 1000) !! 500%nat = Some median ∧
    MeasureTransform fuel TSize m e vecData w
    = (Ok (median, bool_decide (m = Vector)),
       after_trials m (N.of_nat (length vecData)) 1000 (tick_alloc w)).
Proof.
  intros Hres Hne Hfuel.
  assert (Hlen : length (sort (samples_from w 1000)) = 1000%nat)
    by (by rewrite length_sort, length_samples_from).
  destruct (lookup_lt_is_Some_2 (sort (samples_from w 1000)) 500)
    as [median Hmed]; [lia|].
  exists median. split; [done|].
  unfold MeasureTransform, bind at 1.
  rewrite reserve_samples_served by done. unfold bind at 1.
  rewrite (collect_samples_spec 1000 fuel [] (tick_alloc w)) by done.
  cbn [app]. unfold bind at 1, at_index.
  change (samples_from (tick_alloc w) 1000) with (samples_from w 1000).
  rewrite Hlen.
  replace (N.to_nat (N.of_nat 1000 / 2)) with 500%nat by (vm_compute; done).
  rewrite Hmed. reflexivity.
Qed.

(** The trial runner has no handler of its own: when the reservation of the
    sample vector is refused, [std::bad_alloc] leaves it before the first
    trial, whatever the strategy and the mode. *)
Lemma MeasureTransform_unreserved fuel w :
  ¬ samples_reserved w →
  MeasureTransform fuel TSize m e vecData w = (Throw bad_alloc, tick_alloc w).
Proof.
  intros Hres. unfold MeasureTransform, bind at 1.
  by rewrite reserve_samples_refused.
Qed.

Lemma MeasureAndReport_unreserved fuel w :
  N.of_nat (length vecData) <= TSize → ¬ samples_reserved w →
  MeasureAndReport fuel TSize m e vecData w = (Throw bad_alloc, tick_alloc w).
Proof.
  intros Hle Hres. unfold MeasureAndReport. rewrite decide_False by lia.
  unfold bind. by rewrite MeasureTransform_unreserved.
Qed.

End TrialFacts.

(** ** Escaping failures *)

Section EscapeFacts.

Context (TSize : N) (vecData : list byte).

Lemma collect_samples_S fuel m e vecSamples :
  collect_samples (S fuel) TSize m e vecData vecSamples
  = if decide (N.of_nat (length vecSamples) < 1000) then
      do tpStart <- now;
      do scaling <- TryMultipleTransforms TSize m e vecData
                      (N.of_nat (length vecData));
      do tpEnd <- now;
      collect_samples fuel TSize m e vecData
        (vecSamples ++ [Z.quot (wrap64 (tpEnd - tpStart)) scaling])
    else ret vecSamples.
Proof. reflexivity. Qed.

(** Without the handler, a refused request ends the first trial, and with it
    the trial runner and the report. *)
Lemma MeasureTransform_throws fuel w :
  samples_reserved w → vecData ≠ [] →
  grants w (allocs w + 1) (N.of_nat (length vecData)) = false →
  MeasureTransform (S fuel) TSize Vector Omit vecData w
  = (Throw bad_alloc, tick_alloc (tick_clock (tick_alloc w))).
Proof.
  intros Hres Hne Hg. unfold MeasureTransform, bind at 1.
  rewrite reserve_samples_served by done. unfold bind at 1.
  rewrite collect_samples_S. rewrite decide_True by (simpl; lia).
  unfold bind at 1. unfold now at 1. cbv beta iota.
  unfold bind at 1.
  rewrite TryMultipleTransforms_throws; [done| |done].
  destruct vecData; [done|]. simpl. lia.
Qed.

Lemma MeasureAndReport_throws fuel w :
  N.of_nat (length vecData) <= TSize →
  samples_reserved w → vecData ≠ [] →
  grants w (allocs w + 1) (N.of_nat (length vecData)) = false →
  MeasureAndReport (S fuel) TSize Vector Omit vecData w
  = (Throw bad_alloc, tick_alloc (tick_clock (tick_alloc w))).
Proof.
  intros Hle Hres Hne Hg. unfold MeasureAndReport.
  rewrite decide_False by lia.
  unfold bind. by rewrite MeasureTransform_throws.
Qed.

End EscapeFacts.

(** ** The transformation and its wrapper: claims C4, C5, C8 and C9 *)

(** C4.  In Include mode [TryTransform] returns what [Transform] returns when
    [Transform] does not fail, and returns an empty vector when [Transform]
    ends in [std::bad_alloc]; in Omit mode it is [Transform] itself, failure
    included.  In terms of the allocator, for the vector strategy: when the
    request for a non-empty input is refused, Include mode returns the empty
    vector and Omit mode ends in [std::bad_alloc]; when it is served, and for
    an empty input, which makes no request, both modes return the copy. *)
Theorem TryTransform_modes (TSize : N) (m : ReturnMethod)
    (buffer : list byte) (length : N) (w : World) :
  (∀ r w', Transform TSize m buffer length w = (Ok r, w') →
           TryTransform TSize m Include buffer length w = (Ok r, w')) ∧
  (∀ w', Transform TSize m buffer length w = (Throw bad_alloc, w') →
         TryTransform TSize m Include buffer length w
         = (Ok (in_vector []), w')) ∧
  TryTransform TSize m Omit buffer length w
  = Transform TSize m buffer length w ∧
  (m = Vector → length ≠ 0 → grants w (allocs w) length = false →
   TryTransform TSize m Include buffer length w
   = (Ok (in_vector []), tick_alloc w) ∧
   TryTransform TSize m Omit buffer length w
   = (Throw bad_alloc, tick_alloc w)) ∧
  (m = Vector → length ≠ 0 → grants w (allocs w) length = true →
   TryTransform TSize m Include buffer length w
   = (Ok (in_vector (take (N.to_nat length) buffer)), tick_alloc w) ∧
   TryTransform TSize m Omit buffer length w
   = (Ok (in_vector (take (N.to_nat length) buffer)), tick_alloc w)) ∧
  (m = Vector → length = 0 →
   TryTransform TSize m Include buffer length w = (Ok (in_vector []), w) ∧
   TryTransform TSize m Omit buffer length w = (Ok (in_vector []), w)).
Proof.
  split; [|split; [|split; [|split; [|split]]]].
  - intros r w' Ht. unfold TryTransform, try_catch_bad_alloc. by rewrite Ht.
  - intros w' Ht. unfold TryTransform, try_catch_bad_alloc. by rewrite Ht.
  - reflexivity.
  - intros -> Hn Hg. unfold TryTransform, try_catch_bad_alloc.
    by rewrite Transform_Vector_refused.
  - intros -> Hn Hg. unfold TryTransform, try_catch_bad_alloc.
    by rewrite Transform_Vector_served.
  - intros -> Hz. unfold TryTransform, try_catch_bad_alloc.
    by rewrite Transform_Vector_empty.
Qed.

Lemma TryTransform_modes_witness :
  TryTransform 4 Vector Include nine_bytes 9 serving_world
  = (Ok (in_vector nine_bytes), tick_alloc serving_world) ∧
  TryTransform 4 Vector Include nine_bytes 9 refusing_world
  = (Ok (in_vector []), tick_alloc refusing_world) ∧
  TryTransform 4 Vector Omit nine_bytes 9 refusing_world
  = (Throw bad_alloc, tick_alloc refusing_world) ∧
  TryTransform 4 Vector Omit [] 0 refusing_world
  = (Ok (in_vector []), refusing_world).
Proof.
  split; [|split; [|split]].
  - apply (proj1 (TryTransform_modes 4 Vector nine_bytes 9 serving_world)).
    reflexivity.
  - apply (proj1 (proj2 (TryTransform_modes 4 Vector nine_bytes 9
                           refusing_world))).
    reflexivity.
  - apply (proj1 (proj2 (proj2 (proj2 (TryTransform_modes 4 Vector nine_bytes
                                         9 refusing_world)))));
      [reflexivity|discriminate|reflexivity].
  - apply (proj2 (proj2 (proj2 (proj2 (proj2 (TryTransform_modes 4 Vector []
                                                0 refusing_world))))));
      reflexivity.
Defined.

(** C5.  For every capacity, return strategy and input on which [Transform]
    does not fail, [TryTransform] in Include mode returns the same result, in
    the same state, as [TryTransform] in Omit mode. *)
Theorem Include_equals_Omit_on_success (TSize : N) (m : ReturnMethod)
    (buffer : list byte) (length : N) (w w' : World) (r : variant TSize) :
  Transform TSize m buffer length w = (Ok r, w') →
  TryTransform TSize m Include buffer length w
  = TryTransform TSize m Omit buffer length w ∧
  TryTransform TSize m Include buffer length w = (Ok r, w').
Proof.
  intros Ht.
  assert (Hi : TryTransform TSize m Include buffer length w = (Ok r, w')).
  { unfold TryTransform, try_catch_bad_alloc. by rewrite Ht. }
  split; [|done]. rewrite Hi. symmetry. exact Ht.
Qed.

Lemma Include_equals_Omit_on_success_witness :
  TryTransform 10 Array Include nine_bytes 9 serving_world
  = TryTransform 10 Array Omit nine_bytes 9 serving_world ∧
  TryTransform 10 Vector Include nine_bytes 9 serving_world
  = TryTransform 10 Vector Omit nine_bytes 9 serving_world.
Proof.
  split.
  - eapply (Include_equals_Omit_on_success 10 Array nine_bytes 9). reflexivity.
  - eapply (Include_equals_Omit_on_success 10 Vector nine_bytes 9).
    reflexivity.
Defined.

(** C8, as the code has it.  For every capacity and every source of length
    [L >= 0] for which the allocation succeeds, [Transform] with the vector
    strategy returns a vector of exactly [L] bytes equal to the source.  An
    empty source needs no allocation, so for [L = 0] this is every call. *)
Theorem Transform_Vector_copies_source (TSize : N) (source : list byte)
    (w : World) :
  source = [] ∨ grants w (allocs w) (N.of_nat (length source)) = true →
  ∃ v, Transform TSize Vector source (N.of_nat (length source)) w
       = (Ok (in_vector v),
          add_allocs (requests Vector (N.of_nat (length source))) w) ∧
       length v = length source ∧ v = source.
Proof.
  intros Hok. exists source. split; [|done].
  destruct (decide (N.of_nat (length source) = 0)) as [Hz|Hnz].
  - rewrite Transform_Vector_empty by done. rewrite Hz.
    rewrite requests_Vector_0, add_allocs_0.
    destruct source; [done|discriminate Hz].
  - destruct Hok as [->|Hg]; [done|].
    rewrite Transform_Vector_served by done.
    rewrite requests_Vector_pos by done.
    by rewrite Nat2N.id, firstn_all.
Qed.

Lemma Transform_Vector_copies_source_witness :
  Transform 4 Vector nine_bytes 9 serving_world
  = (Ok (in_vector nine_bytes), tick_alloc serving_world) ∧
  Transform 4 Vector [] 0 refusing_world
  = (Ok (in_vector []), refusing_world).
Proof.
  split.
  - destruct (Transform_Vector_copies_source 4 nine_bytes serving_world)
      as (v & Hv & _ & ->); [by right|exact Hv].
  - destruct (Transform_Vector_copies_source 4 [] refusing_world)
      as (v & Hv & _ & ->); [by left|exact Hv].
Defined.

(** C8, as stated, fails: with an exhausted allocator [Transform] with the
    vector strategy returns no vector for a source of three bytes, it ends in
    [std::bad_alloc]. *)
Lemma Transform_Vector_may_throw :
  Transform 4 Vector [x01; x02; x03] 3 refusing_world
  = (Throw bad_alloc, tick_alloc refusing_world) ∧
  ¬ ∃ v w', Transform 4 Vector [x01; x02; x03] 3 refusing_world
            = (Ok (in_vector v), w').
Proof.
  split; [reflexivity|]. intros (v & w' & H). discriminate H.
Qed.

(** C9.  [std::bad_alloc] from the vector strategy is the only way
    [Transform] fails: with the array strategy it returns the buffer and
    leaves the state alone, for every capacity and input, so [TryTransform]
    in Include mode returns that buffer and never its fallback; and for
    either strategy the call ends with a value, or with [std::bad_alloc]
    under the vector strategy. *)
Theorem Transform_fails_only_by_bad_alloc (TSize : N) (buffer : list byte)
    (length : N) (w : World) :
  Transform TSize Array buffer length w
  = (Ok (in_StackBuffer
           (StackBuffer.move_ctor (StackBuffer.ctor TSize buffer length))), w) ∧
  TryTransform TSize Array Include buffer length w
  = (Ok (in_StackBuffer
           (StackBuffer.move_ctor (StackBuffer.ctor TSize buffer length))), w) ∧
  ∀ m, match fst (Transform TSize m buffer length w) with
       | Ok _ => True
       | Throw e => e = bad_alloc ∧ m = Vector
       | Undefined | OutOfFuel => False
       end.
Proof.
  split; [reflexivity|]. split; [reflexivity|].
  intros [|]; [done|].
  destruct (decide (length = 0)) as [Hz|Hnz].
  - by rewrite Transform_Vector_empty.
  - destruct (grants w (allocs w) length) eqn:Hg.
    + by rewrite Transform_Vector_served.
    + by rewrite Transform_Vector_refused.
Qed.

(** ** The trial runner and the report: claims C2 and C3 *)

(** C2, as the code has it.  For every configuration and input for which the
    allocator serves the reservation of the sample vector and no allocation
    failure escapes [TryTransform] (the array strategy, or Include mode, or
    an empty input, or an allocator that serves every request of the input's
    size), and with fuel for a thousand turns of its loop,
    [MeasureTransform] collects exactly 1000 samples, one for each pair of
    clock readings, sorts them ascending and returns the one sample at index
    500 of the sorted vector, whichever algorithm sorts it, together with a
    flag that is true exactly for the vector strategy. *)
Theorem MeasureTransform_reports_sample_500 (fuel : nat) (TSize : N)
    (m : ReturnMethod) (e : ExceptionHandling) (vecData : list byte)
    (w : World) :
  samples_reserved w →
  never_escapes m e (N.of_nat (length vecData)) w → (1000 ≤ fuel)%nat →
  ∃ (vecSamples : list Z) (median : Z) (flag : bool),
    collect_samples fuel TSize m e vecData [] (tick_alloc w)
    = (Ok vecSamples,
       after_trials m (N.of_nat (length vecData)) 1000 (tick_alloc w)) ∧
    vecSamples = samples_from w 1000 ∧
    length vecSamples = 1000%nat ∧
    Sorted Z.le (sort vecSamples) ∧ sort vecSamples ≡ₚ vecSamples ∧
    sort vecSamples !! 500%nat = Some median ∧
    (∀ l, Sorted Z.le l → l ≡ₚ vecSamples → l !! 500%nat = Some median) ∧
    (flag = true ↔ m = Vector) ∧
    MeasureTransform fuel TSize m e vecData w
    = (Ok (median, flag),
       after_trials m (N.of_nat (length vecData)) 1000 (tick_alloc w)).
Proof.
  intros Hres Hne Hfuel.
  destruct (MeasureTransform_spec TSize m e vecData fuel w Hres Hne Hfuel)
    as (median & Hmed & Hrun).
  exists (samples_from w 1000), median, (bool_decide (m = Vector)).
  split; [|split; [|split; [|split; [|split; [|split; [|split; [|split]]]]]]].
  - by rewrite (collect_samples_spec TSize m e vecData 1000 fuel []
                  (tick_alloc w)).
  - done.
  - apply length_samples_from.
  - apply Sorted_sort.
  - apply sort_Permutation.
  - done.
  - intros l Hs Hp. by rewrite (sort_unique _ l Hs Hp).
  - apply bool_decide_eq_true.
  - done.
Qed.

Lemma MeasureTransform_reports_sample_500_witness :
  MeasureTransform 1000 10 Array Include nine_bytes serving_world
  = (Ok (500%Z, false), after_trials Array 9 1000 (tick_alloc serving_world)).
Proof.
  pose proof (MeasureTransform_reports_sample_500 1000 10 Array Include
                nine_bytes serving_world) as H.
  assert (H0 : samples_reserved serving_world) by reflexivity.
  assert (H1 : never_escapes Array Include (N.of_nat (length nine_bytes))
                             serving_world)
    by (right; left; reflexivity).
  assert (H2 : (1000 ≤ 1000)%nat) by apply le_n.
  destruct (H H0 H1 H2)
    as (vecSamples & median & flag & _ & Hs & _ & _ & _ & Hmed & _ & Hflag
        & Hrun).
  subst vecSamples. vm_compute in Hmed. injection Hmed as <-.
  rewrite Hrun. destruct flag; [|reflexivity].
  discriminate (proj1 Hflag eq_refl).
Defined.

(** C2, as stated, fails, in two ways.  With an exhausted allocator the
    reservation of the sample vector is refused, and [MeasureTransform],
    here with the array strategy and Include mode, collects no sample and
    returns no pair.  With an allocator that serves that reservation and
    nothing else, and the vector strategy in Omit mode, [std::bad_alloc]
    leaves [MeasureTransform] during the first trial. *)
Lemma MeasureTransform_may_throw :
  (MeasureTransform 1000 64 Array Include nine_bytes refusing_world
   = (Throw bad_alloc, tick_alloc refusing_world) ∧
   ¬ ∃ r w', MeasureTransform 1000 64 Array Include nine_bytes refusing_world
             = (Ok r, w')) ∧
  (MeasureTransform 1000 64 Vector Omit nine_bytes samples_only_world
   = (Throw bad_alloc,
      tick_alloc (tick_clock (tick_alloc samples_only_world))) ∧
   ¬ ∃ r w', MeasureTransform 1000 64 Vector Omit nine_bytes
               samples_only_world = (Ok r, w')).
Proof.
  assert (H1 : MeasureTransform 1000 64 Array Include nine_bytes
                 refusing_world
               = (Throw bad_alloc, tick_alloc refusing_world)).
  { apply MeasureTransform_unreserved. discriminate. }
  assert (H2 : MeasureTransform 1000 64 Vector Omit nine_bytes
                 samples_only_world
               = (Throw bad_alloc,
                  tick_alloc (tick_clock (tick_alloc samples_only_world)))).
  { by apply (MeasureTransform_throws 64 nine_bytes 999). }
  split; (split; [done|]).
  - intros (r & w' & H'). rewrite H1 in H'. discriminate H'.
  - intros (r & w' & H'). rewrite H2 in H'. discriminate H'.
Qed.

(** The scrambled clock at work: the thousand samples are 0 to 999, and the
    one reported is 500, neither their mean nor the mean of the two middle
    ones (499 and 500). *)
Lemma MeasureTransform_sample_500_serving :
  MeasureTransform 1000 10 Array Include nine_bytes serving_world
  = (Ok (500%Z, false), after_trials Array 9 1000 (tick_alloc serving_world)).
Proof.
  destruct (MeasureTransform_spec 10 Array Include nine_bytes 1000
              serving_world) as (median & Hmed & Hrun).
  - reflexivity.
  - right. left. reflexivity.
  - apply le_n.
  - vm_compute in Hmed. injection Hmed as <-. exact Hrun.
Qed.

Example sample_500_is_not_a_mean :
  let sorted := sort (samples_from serving_world 1000) in
  sorted !! 499%nat = Some 499%Z ∧ sorted !! 500%nat = Some 500%Z ∧
  Z.quot (foldr Z.add 0%Z sorted) 1000 = 499%Z.
Proof. vm_compute. done. Qed.

(** C3, as the code has it.  A point whose capacity is less than the input
    length is skipped: [MeasureAndReport] returns at once, reading no clock
    and printing nothing.  A point whose capacity is at least the input
    length, for which the allocator serves the reservation of the sample
    vector and from which no allocation failure escapes [TryTransform], is
    measured and prints exactly one line, the one for the result of
    [MeasureTransform]. *)
Theorem MeasureAndReport_skips_or_reports (fuel : nat) (TSize : N)
    (m : ReturnMethod) (e : ExceptionHandling) (vecData : list byte)
    (w : World) :
  let L := N.of_nat (length vecData) in
  (TSize < L → MeasureAndReport fuel TSize m e vecData w = (Ok (), w)) ∧
  (L <= TSize → samples_reserved w → never_escapes m e L w →
   (1000 ≤ fuel)%nat →
   ∃ (median : Z) (line : string) (w' : World),
     MeasureTransform fuel TSize m e vecData w
     = (Ok (median, bool_decide (m = Vector)),
        after_trials m L 1000 (tick_alloc w)) ∧
     line = report_line L TSize median (bool_decide (m = Vector))
                        (ExceptionHandling_to_uint32 e) ∧
     MeasureAndReport fuel TSize m e vecData w = (Ok (), w') ∧
     out w' = out w ++ [line]).
Proof.
  intros L. split.
  - intros Hlt. unfold MeasureAndReport. by rewrite decide_True.
  - intros Hle Hres Hne Hfuel.
    destruct (MeasureTransform_spec TSize m e vecData fuel w Hres Hne Hfuel)
      as (median & _ & Hrun).
    eexists median, _, _. split; [exact Hrun|]. split; [reflexivity|].
    unfold MeasureAndReport. rewrite decide_False by (fold L; lia).
    unfold bind. rewrite Hrun. unfold print_line. split; reflexivity.
Qed.

Lemma MeasureAndReport_skips_or_reports_witness :
  MeasureAndReport 1000 4 Array Include nine_bytes serving_world
  = (Ok (), serving_world) ∧
  ∃ w', MeasureAndReport 1000 10 Array Include nine_bytes serving_world
        = (Ok (), w') ∧
        out w'
        = ["Data: 9, Buffer: 10, Duration:500 ns, Vector: 0, Exceptions: 1"].
Proof.
  pose proof (MeasureAndReport_skips_or_reports 1000 4 Array Include
                nine_bytes serving_world) as [Hskip _].
  pose proof (MeasureAndReport_skips_or_reports 1000 10 Array Include
                nine_bytes serving_world) as [_ Hrep].
  split.
  - apply Hskip. reflexivity.
  - assert (H1 : never_escapes Array Include (N.of_nat (length nine_bytes))
                               serving_world)
      by (right; left; reflexivity).
    assert (H2 : (1000 ≤ 1000)%nat) by apply le_n.
    assert (H0 : N.of_nat (length nine_bytes) <= 10) by (simpl; lia).
    assert (H3 : samples_reserved serving_world) by reflexivity.
    destruct (Hrep H0 H3 H1 H2) as (median & line & w' & Hm & Hl & Hr & Ho).
    exists w'. split; [exact Hr|]. rewrite Ho, Hl.
    pose proof MeasureTransform_sample_500_serving as Hm'.
    rewrite Hm' in Hm. injection Hm as <-. reflexivity.
Defined.

(** C3, as stated, fails, in two ways.  A point with capacity 64 and nine
    bytes of input is not skipped, yet it prints no line when the
    reservation of the sample vector is refused (here with the array
    strategy and Include mode), and none when that reservation is served
    and the request of the vector strategy in Omit mode is refused:
    [std::bad_alloc] leaves [MeasureAndReport]. *)
Lemma MeasureAndReport_may_throw :
  N.of_nat (length nine_bytes) <= 64 ∧
  (MeasureAndReport 1000 64 Array Include nine_bytes refusing_world
   = (Throw bad_alloc, tick_alloc refusing_world) ∧
   out (tick_alloc refusing_world) = []) ∧
  (MeasureAndReport 1000 64 Vector Omit nine_bytes samples_only_world
   = (Throw bad_alloc,
      tick_alloc (tick_clock (tick_alloc samples_only_world))) ∧
   out (tick_alloc (tick_clock (tick_alloc samples_only_world))) = []).
Proof.
  split; [simpl; lia|]. split; (split; [|reflexivity]).
  - apply MeasureAndReport_unreserved; [simpl; lia|discriminate].
  - by apply (MeasureAndReport_throws 64 nine_bytes 999); [simpl; lia|..].
Qed.

(** * Further properties *)

(** ** Test data: [GenerateData] *)

Section GenerateDataFacts.

Context (uniform_dist : N → Z) (length : N).


Lemma fill_data_spec n fuel drawn vecData w :
  N.of_nat (List.length vecData) + N.of_nat n = length → (n ≤ fuel)%nat →
  fill_data fuel uniform_dist length drawn vecData w
  = (Ok (vecData
         ++ ((λ k : nat, to_byte (uniform_dist (drawn + N.of_nat k)))
             <$> seq 0 n)), w).
Proof.
  revert fuel drawn vecData.
  induction n as [|n IH]; intros fuel drawn vecData Hlen Hfuel.
  - assert (Hstop : ¬ N.of_nat (List.length vecData) < length) by lia.
    destruct fuel; cbn [fill_data]; rewrite (decide_False _ _ Hstop);
      unfold ret; simpl; by rewrite app_nil_r.
  - assert (Hgo : N.of_nat (List.length vecData) < length) by lia.
    destruct fuel as [|fuel]; [lia|].
    cbn [fill_data]. rewrite (decide_True _ _ Hgo).
    rewrite IH.
    + rewrite <- app_assoc. cbn [app seq fmap list_fmap].
      rewrite <- fmap_S_seq, <- list_fmap_compose.
      do 4 f_equal.
      * do 2 f_equal. simpl. lia.
      * apply list_fmap_ext. intros _ k _. simpl. do 2 f_equal. lia.
    + rewrite length_app. simpl. lia.
    + lia.
Qed.

Lemma GenerateData_spec fuel w :
  (N.to_nat length ≤ fuel)%nat →
  GenerateData fuel uniform_dist length w
  = (Ok ((λ k : nat, to_byte (uniform_dist (N.of_nat k)))
         <$> seq 0 (N.to_nat length)), w).
Proof.
  intros Hfuel. unfold GenerateData.
  rewrite (fill_data_spec (N.to_nat length)); [|simpl; lia|done].
  cbn [app]. do 2 f_equal.
Qed.

End GenerateDataFacts.





(** ** The bounded buffer *)

(** X3.  Two sources give the same [StackBuffer<TSize>] exactly when they
    give the same stored length and agree on the bytes that are stored:
    bytes beyond the capacity never reach the buffer. *)
Theorem ctor_eq_iff (TSize : N) (s1 s2 : list byte) :
  let n1 := N.min TSize (N.of_nat (length s1)) in
  let n2 := N.min TSize (N.of_nat (length s2)) in
  StackBuffer.ctor TSize s1 (N.of_nat (length s1))
  = StackBuffer.ctor TSize s2 (N.of_nat (length s2))
  ↔ n1 = n2 ∧ take (N.to_nat n1) s1 = take (N.to_nat n2) s2.
Proof.
  intros n1 n2. split.
  - intros Heq.
    assert (Hn : n1 = n2) by exact (f_equal StackBuffer.m_length Heq).
    split; [done|].
    apply (f_equal StackBuffer.contents) in Heq.
    rewrite !StackBufferFacts.contents_ctor in Heq by lia.
    by apply (inj (fmap Some)) in Heq.
  - intros [Hn Ht]. unfold StackBuffer.ctor. fold n1 n2. rewrite <- Hn.
    f_equal. unfold memcpy. f_equal.
    rewrite <- !fmap_take. rewrite Ht. by rewrite Hn.
Qed.

(** X4.  A source that fits can be read back: on sources of at most [TSize]
    bytes the constructor is injective. *)
Theorem ctor_injective_when_fits (TSize : N) (s1 s2 : list byte) :
  N.of_nat (length s1) <= TSize → N.of_nat (length s2) <= TSize →
  StackBuffer.ctor TSize s1 (N.of_nat (length s1))
  = StackBuffer.ctor TSize s2 (N.of_nat (length s2)) →
  s1 = s2.
Proof.
  intros H1 H2 Heq.
  apply (f_equal StackBuffer.contents) in Heq.
  rewrite !StackBufferFacts.contents_ctor in Heq by lia.
  apply (inj (fmap Some)) in Heq.
  rewrite !take_ge in Heq by lia. exact Heq.
Qed.

Lemma ctor_injective_when_fits_witness :
  StackBuffer.ctor 4 [x01; x02] 2
  = StackBuffer.ctor 4 (take 2 [x01; x02; x03]) 2 ∧
  [x01; x02] = take 2 [x01; x02; x03].
Proof.
  split; [reflexivity|].
  apply (ctor_injective_when_fits 4 [x01; x02] (take 2 [x01; x02; x03]));
    [simpl; lia|simpl; lia|reflexivity].
Defined.

(** X5.  A copy never carries bytes from beyond the length: the array of a
    copy-constructed buffer is the contents of the source followed by
    indeterminate cells, and copying a copy changes nothing more. *)
Theorem copy_ctor_keeps_contents_only (TSize : N) (s : StackBuffer.t TSize) :
  StackBuffer.wf s →
  StackBuffer.m_data (StackBuffer.copy_ctor s)
  = StackBuffer.contents s
    ++ replicate (N.to_nat (TSize - StackBuffer.m_length s)) None ∧
  StackBuffer.copy_ctor (StackBuffer.copy_ctor s) = StackBuffer.copy_ctor s.
Proof.
  intros (Hd & Hl & _). split.
  - unfold StackBuffer.copy_ctor, StackBuffer.contents, memcpy, uninit. simpl.
    rewrite drop_replicate. do 2 f_equal. lia.
  - unfold StackBuffer.copy_ctor at 1 3. simpl. f_equal.
    unfold memcpy at 1 3. f_equal. apply take_memcpy. lia.
Qed.

Lemma copy_ctor_keeps_contents_only_witness :
  StackBuffer.m_data
    (StackBuffer.copy_ctor
       (StackBuffer.assign_body (StackBuffer.ctor 4 nine_bytes 9)
                                (StackBuffer.ctor 4 [xaa; xbb] 2)))
  = [Some xaa; Some xbb; None; None].
Proof.
  destruct (copy_ctor_keeps_contents_only 4
              (StackBuffer.assign_body (StackBuffer.ctor 4 nine_bytes 9)
                                       (StackBuffer.ctor 4 [xaa; xbb] 2)))
    as [Hd _].
  - apply StackBufferFacts.wf_assign_body;
      apply StackBufferFacts.wf_ctor; simpl; lia.
  - exact Hd.
Defined.

(** X8.  In every store reached from the empty one by operations of the
    type that return (construction from a byte range, copy and move
    construction), every buffer has an array of exactly [TSize] cells, and
    each cell below its length has been written: reading the contents of a
    buffer never meets an indeterminate byte. *)
Theorem reachable_contents_written (TSize : N) (os : list op)
    (σ : gmap addr (StackBuffer.t TSize)) (a : addr)
    (b : StackBuffer.t TSize) :
  run os ∅ = Some σ → σ !! a = Some b →
  N.of_nat (length (StackBuffer.m_data b)) = TSize ∧
  ∃ bytes : list byte,
    StackBuffer.contents b = Some <$> bytes ∧
    N.of_nat (length bytes) = StackBuffer.m_length b.
Proof.
  intros Hrun Ha.
  assert (Hσ : store_wf σ).
  { eapply run_wf; [|exact Hrun]. apply map_Forall_empty. }
  pose proof (store_wf_lookup _ _ _ Hσ Ha) as Hb.
  pose proof Hb as (Hd & Hl & Hw). split; [done|].
  assert (Hex : ∀ l : list cell, Forall is_Some l →
                                 ∃ bytes, l = Some <$> bytes).
  { induction 1 as [|x l [y ->] _ [bytes ->]].
    - by exists [].
    - by exists (y :: bytes). }
  destruct (Hex _ Hw) as [bytes Hbytes]. exists bytes. split; [done|].
  rewrite <- (StackBufferFacts.length_contents b Hb), Hbytes.
  by rewrite length_fmap.
Qed.

Lemma reachable_contents_written_witness :
  ∃ (σ : gmap addr (StackBuffer.t 4)) (b : StackBuffer.t 4)
    (bytes : list byte),
    run client_ops ∅ = Some σ ∧ σ !! 3%positive = Some b ∧
    StackBuffer.contents b = Some <$> bytes.
Proof.
  eexists _, _. 
  destruct (reachable_contents_written 4 client_ops
              (default ∅ (run client_ops ∅)) 3%positive
              (default (StackBuffer.ctor 4 [] 0)
                 (default ∅ (run client_ops ∅) !! 3%positive)))
    as (_ & bytes & Hb & _).
  - vm_compute. reflexivity.
  - vm_compute. reflexivity.
  - exists bytes. split; [vm_compute; reflexivity|].
    split; [vm_compute; reflexivity|]. exact Hb.
Defined.

(** X9.  With the array strategy, and a source that holds the bytes to be
    copied, the buffer that [Transform] moves into its result is the one the
    constructor built, cell for cell; it satisfies the class invariant and
    the state is untouched. *)
Theorem Transform_Array_returns_ctor (TSize : N) (buffer : list byte)
    (length : N) (w : World) :
  N.min TSize length <= N.of_nat (List.length buffer) →
  Transform TSize Array buffer length w
  = (Ok (in_StackBuffer (StackBuffer.ctor TSize buffer length)), w) ∧
  StackBuffer.wf (StackBuffer.ctor TSize buffer length).
Proof.
  intros Hlen. split.
  - rewrite Transform_Array. by rewrite StackBufferFacts.move_ctor_ctor.
  - by apply StackBufferFacts.wf_ctor.
Qed.

Lemma Transform_Array_returns_ctor_witness :
  Transform 4 Array nine_bytes 9 serving_world
  = (Ok (in_StackBuffer (StackBuffer.ctor 4 nine_bytes 9)), serving_world).
Proof.
  destruct (Transform_Array_returns_ctor 4 nine_bytes 9 serving_world)
    as [Ht _]; [simpl; lia|exact Ht].
Defined.

(** ** The wrapper and the iteration driver *)

(** X10.  In Include mode [TryTransform] never ends in an exception: for
    every strategy, input and allocator it returns a value, having made the
    one request of the vector strategy for a non-empty input, or none. *)
Theorem TryTransform_Include_always_returns (TSize : N) (m : ReturnMethod)
    (buffer : list byte) (length : N) (w : World) :
  ∃ r : variant TSize,
    TryTransform TSize m Include buffer length w
    = (Ok r, add_allocs (requests m length) w).
Proof.
  destruct m.
  - eexists. rewrite TryTransform_Array, Transform_Array.
    by rewrite add_allocs_0.
  - eexists. by rewrite TryTransform_Include_Vector.
Qed.

(** X11.  When no allocation failure can escape, [TryMultipleTransforms]
    returns 10000 after exactly 10000 calls of [TryTransform]: 10000
    requests to the allocator with the vector strategy and a non-empty
    input, none with the array strategy or an empty input; it reads no clock
    and prints nothing. *)
Theorem TryMultipleTransforms_counts (TSize : N) (m : ReturnMethod)
    (e : ExceptionHandling) (buffer : list byte) (length : N) (w : World) :
  never_escapes m e length w →
  ∃ w' : World,
    TryMultipleTransforms TSize m e buffer length w = (Ok 10000%Z, w') ∧
    allocs w' = allocs w + 10000 * requests m length ∧
    reads w' = reads w ∧ out w' = out w ∧
    clock w' = clock w ∧ grants w' = grants w.
Proof.
  intros Hne. eexists. split; [by apply TryMultipleTransforms_returns|].
  done.
Qed.

Lemma TryMultipleTransforms_counts_witness :
  (∃ w' : World,
     TryMultipleTransforms 4 Vector Include nine_bytes 9 refusing_world
     = (Ok 10000%Z, w') ∧
     allocs w' = 10000) ∧
  (∃ w' : World,
     TryMultipleTransforms 4 Vector Omit [] 0 refusing_world
     = (Ok 10000%Z, w') ∧
     allocs w' = 0).
Proof.
  split.
  - destruct (TryMultipleTransforms_counts 4 Vector Include nine_bytes 9
                refusing_world) as (w' & Hr & Ha & _).
    + right. left. reflexivity.
    + exists w'. split; [exact Hr|]. rewrite Ha. reflexivity.
  - destruct (TryMultipleTransforms_counts 4 Vector Omit [] 0
                refusing_world) as (w' & Hr & Ha & _).
    + right. right. left. reflexivity.
    + exists w'. split; [exact Hr|]. rewrite Ha. reflexivity.
Defined.

Section FirstRefusal.

Context (TSize : N) (buffer : list byte) (length : N).

Lemma for_times_first_refusal (j : nat) n w :
  length ≠ 0 → (j < n)%nat →
  (∀ i : nat, (i < j)%nat → grants w (allocs w + N.of_nat i) length = true) →
  grants w (allocs w + N.of_nat j) length = false →
  for_times n (do r <- TryTransform TSize Vector Omit buffer length;
               DoNotOptimize r) w
  = (Throw bad_alloc, add_allocs (N.of_nat j + 1) w).
Proof.
  intros Hnz. revert n w. induction j as [|j IH]; intros n w Hn Hpre Hj.
  - destruct n as [|n]; [lia|].
    cbn [for_times]. unfold bind at 1. unfold bind at 1.
    unfold TryTransform. rewrite Transform_Vector_refused; [done|done|].
    rewrite <- Hj. f_equal. simpl. lia.
  - destruct n as [|n]; [lia|].
    cbn [for_times]. unfold bind at 1. unfold bind at 1.
    unfold TryTransform. rewrite Transform_Vector_served; [|done|].
    + unfold DoNotOptimize, ret. cbv beta iota.
      rewrite IH.
      * unfold tick_alloc. rewrite add_allocs_add. do 2 f_equal. lia.
      * lia.
      * intros i Hi. simpl. rewrite <- (Hpre (S i)) by lia. f_equal. lia.
      * simpl. rewrite <- Hj. f_equal. lia.
    + rewrite <- (Hpre 0%nat) by lia. f_equal. simpl. lia.
Qed.

End FirstRefusal.

(** X12.  With the vector strategy, a non-empty input and no handler, the
    loop of [TryMultipleTransforms] ends at the first refused request: if
    the first [j] requests are served and the next one is refused, with
    [j < 10000], the call ends in [std::bad_alloc] after exactly [j + 1]
    requests. *)
Theorem TryMultipleTransforms_stops_at_first_refusal (TSize : N)
    (buffer : list byte) (length : N) (w : World) (j : N) :
  length ≠ 0 → j < 10000 →
  (∀ i, i < j → grants w (allocs w + i) length = true) →
  grants w (allocs w + j) length = false →
  TryMultipleTransforms TSize Vector Omit buffer length w
  = (Throw bad_alloc, add_allocs (j + 1) w).
Proof.
  intros Hnz Hj Hpre Hrefused. unfold TryMultipleTransforms, bind at 1.
  rewrite (for_times_first_refusal TSize buffer length (N.to_nat j)).
  - do 2 f_equal. lia.
  - done.
  - unfold scaling. lia.
  - intros i Hi. apply Hpre. lia.
  - rewrite <- Hrefused. f_equal. lia.
Qed.

Lemma TryMultipleTransforms_stops_at_first_refusal_witness :
  TryMultipleTransforms 4 Vector Omit nine_bytes 9
    (MkWorld scrambled_clock (λ k _, bool_decide (k ≠ 3)) 0 0 [])
  = (Throw bad_alloc,
     add_allocs 4 (MkWorld scrambled_clock (λ k _, bool_decide (k ≠ 3))
                           0 0 [])).
Proof.
  apply (TryMultipleTransforms_stops_at_first_refusal 4 nine_bytes 9
           (MkWorld scrambled_clock (λ k _, bool_decide (k ≠ 3)) 0 0 []) 3).
  - discriminate.
  - lia.
  - intros i Hi. simpl. apply bool_decide_eq_true. lia.
  - reflexivity.
Defined.

(** X18.  The two modes of [TryTransform] differ on exactly one kind of
    call: they return the same result in the same state unless the strategy
    is the vector one, the input is not empty and the allocator refuses the
    request. *)
Theorem TryTransform_modes_agree_iff (TSize : N) (m : ReturnMethod)
    (buffer : list byte) (length : N) (w : World) :
  TryTransform TSize m Include buffer length w
  = TryTransform TSize m Omit buffer length w
  ↔ m = Array ∨ length = 0 ∨ grants w (allocs w) length = true.
Proof.
  destruct m.
  - split; [by left|]. intros _. by rewrite !TryTransform_Array.
  - unfold TryTransform, try_catch_bad_alloc.
    destruct (decide (length = 0)) as [Hz|Hnz].
    + rewrite Transform_Vector_empty by done. split; [by right; left|done].
    + destruct (grants w (allocs w) length) eqn:Hg.
      * rewrite Transform_Vector_served by done.
        split; [by right; right|done].
      * rewrite Transform_Vector_refused by done.
        split; [discriminate|]. by intros [?|[?|?]].
Qed.

(** ** The reported sample *)

Section Rank.

Lemma length_filter_Forall (P : Z → Prop) `{∀ x, Decision (P x)}
    (l : list Z) :
  Forall P l → length (filter P l) = length l.
Proof.
  induction 1 as [|x l Hx _ IH]; [done|].
  rewrite filter_cons, decide_True by done. simpl. by rewrite IH.
Qed.

(** In a sorted list, the element at index [i] has at least [i + 1] elements
    at or below it and all the elements from index [i] on at or above it. *)
Lemma sorted_rank (l : list Z) (i : nat) (x : Z) :
  Sorted Z.le l → l !! i = Some x →
  (S i ≤ length (filter (λ y, (y <= x)%Z) l))%nat ∧
  (length l - i ≤ length (filter (λ y, (x <= y)%Z) l))%nat.
Proof.
  intros Hs Hi. apply (Sorted_StronglySorted Z.le) in Hs.
  pose proof (lookup_lt_Some _ _ _ Hi) as Hlt.
  rewrite <- (take_drop_middle l i x Hi) in Hs |- *.
  apply StronglySorted_app in Hs as (Hle & _ & Hs2).
  apply StronglySorted_cons in Hs2 as [Hge _].
  rewrite !filter_app, !length_app, !filter_cons.
  rewrite !decide_True by lia. cbn [length].
  rewrite length_take, length_drop. split.
  - rewrite (length_filter_Forall (λ y, (y <= x)%Z)).
    + rewrite length_take. lia.
    + apply Forall_forall. intros y Hy. apply Hle; [done|]. by left.
  - rewrite (length_filter_Forall (λ y, (x <= y)%Z) (drop (S i) l)) by done.
    rewrite length_drop. lia.
Qed.

Lemma Forall_samples_from (P : Z → Prop) w n :
  (∀ k, P (sample_at w k)) → Forall P (samples_from w n).
Proof.
  intros HP. unfold samples_from. apply Forall_fmap, Forall_true.
  intros k. apply HP.
Qed.

Lemma wrap64_small z : (- 2 ^ 63 <= z < 2 ^ 63)%Z → wrap64 z = z.
Proof. intros Hz. unfold wrap64. rewrite Z.mod_small; lia. Qed.

End Rank.

(** X13.  When the reservation of the sample vector is served and no
    allocation failure escapes [TryTransform], the duration
    [MeasureTransform] reports is one of its thousand samples, not a value
    computed from several of them, and it is an upper median: at least 501
    samples are at or below it and at least 500 are at or above it. *)
Theorem MeasureTransform_reports_upper_median (fuel : nat) (TSize : N)
    (m : ReturnMethod) (e : ExceptionHandling) (vecData : list byte)
    (w : World) :
  samples_reserved w →
  never_escapes m e (N.of_nat (length vecData)) w → (1000 ≤ fuel)%nat →
  ∃ (median : Z) (flag : bool),
    MeasureTransform fuel TSize m e vecData w
    = (Ok (median, flag),
       after_trials m (N.of_nat (length vecData)) 1000 (tick_alloc w)) ∧
    median ∈ samples_from w 1000 ∧
    (501 ≤ length (filter (λ x, (x <= median)%Z) (samples_from w 1000)))%nat ∧
    (500 ≤ length (filter (λ x, (median <= x)%Z) (samples_from w 1000)))%nat.
Proof.
  intros Hres Hne Hfuel.
  destruct (MeasureTransform_spec TSize m e vecData fuel w Hres Hne Hfuel)
    as (median & Hmed & Hrun).
  exists median, (bool_decide (m = Vector)). split; [done|].
  pose proof (sorted_rank _ _ _ (Sorted_sort _) Hmed) as [Hlo Hhi].
  rewrite length_sort, length_samples_from in Hhi.
  rewrite (sort_Permutation (samples_from w 1000)) in Hlo, Hhi.
  split; [|split; [done|lia]].
  rewrite <- (sort_Permutation (samples_from w 1000)).
  by eapply list_elem_of_lookup_2.
Qed.

Lemma MeasureTransform_reports_upper_median_witness :
  ∃ (median : Z) (flag : bool),
    MeasureTransform 1000 10 Vector Omit nine_bytes serving_world
    = (Ok (median, flag),
       after_trials Vector 9 1000 (tick_alloc serving_world)) ∧
    median ∈ samples_from serving_world 1000.
Proof.
  destruct (MeasureTransform_reports_upper_median 1000 10 Vector Omit
              nine_bytes serving_world) as (median & flag & Hr & Hin & _).
  - reflexivity.
  - right. right. right. intros k. reflexivity.
  - apply le_n.
  - exists median, flag. split; [exact Hr|exact Hin].
Defined.

(** X14.  With a clock that never runs backwards and whose consecutive
    readings are less than 2^63 nanoseconds apart, every sample is
    non-negative, and so is the duration [MeasureTransform] reports (the
    reservation of the sample vector being served and no allocation failure
    escaping). *)
Theorem MeasureTransform_nonnegative (fuel : nat) (TSize : N)
    (m : ReturnMethod) (e : ExceptionHandling) (vecData : list byte)
    (w : World) :
  steady w → samples_reserved w →
  never_escapes m e (N.of_nat (length vecData)) w → (1000 ≤ fuel)%nat →
  Forall (λ x, (0 <= x)%Z) (samples_from w 1000) ∧
  ∃ (median : Z) (flag : bool),
    MeasureTransform fuel TSize m e vecData w
    = (Ok (median, flag),
       after_trials m (N.of_nat (length vecData)) 1000 (tick_alloc w)) ∧
    (0 <= median)%Z.
Proof.
  intros Hsteady Hres Hne Hfuel.
  assert (Hall : Forall (λ x, (0 <= x)%Z) (samples_from w 1000)).
  { apply Forall_samples_from. intros k. unfold sample_at, scaling.
    specialize (Hsteady (reads w + 2 * k)).
    apply Z.quot_pos; [|lia]. rewrite wrap64_small; lia. }
  split; [done|].
  destruct (MeasureTransform_spec TSize m e vecData fuel w Hres Hne Hfuel)
    as (median & Hmed & Hrun).
  exists median, (bool_decide (m = Vector)). split; [done|].
  apply list_elem_of_lookup_2 in Hmed.
  rewrite (sort_Permutation (samples_from w 1000)) in Hmed.
  by apply (proj1 (Forall_forall _ _) Hall).
Qed.

Lemma MeasureTransform_nonnegative_witness :
  ∃ (median : Z) (flag : bool),
    MeasureTransform 1000 10 Array Omit nine_bytes
      (MkWorld (λ k, 15000 * Z.of_N k)%Z (λ _ _, true) 0 0 [])
    = (Ok (median, flag),
       after_trials Array 9 1000
         (tick_alloc
            (MkWorld (λ k, 15000 * Z.of_N k)%Z (λ _ _, true) 0 0 []))) ∧
    (0 <= median)%Z.
Proof.
  destruct (MeasureTransform_nonnegative 1000 10 Array Omit nine_bytes
              (MkWorld (λ k, 15000 * Z.of_N k)%Z (λ _ _, true) 0 0 []))
    as (_ & median & flag & Hr & Hpos).
  - intros k. simpl. lia.
  - reflexivity.
  - left. reflexivity.
  - apply le_n.
  - exists median, flag. split; [exact Hr|exact Hpos].
Defined.

(** ** The program: [main] *)

Section MainFacts.

Lemma bind_ext {A B} (c : M A) (k1 k2 : A → M B) w :
  (∀ a w', k1 a w' = k2 a w') → bind c k1 w = bind c k2 w.
Proof.
  intros Hk. unfold bind. destruct (c w) as [[a| | |] w']; [apply Hk|done..].
Qed.

Lemma bind_assoc {A B C} (c : M A) (k1 : A → M B) (k2 : B → M C) w :
  bind (bind c k1) k2 w = bind c (λ a, bind (k1 a) k2) w.
Proof. unfold bind. by destruct (c w) as [[a| | |] w']. Qed.

Lemma bind_ret_unit (c : M unit) w : bind c (λ _, ret ()) w = c w.
Proof. unfold bind, ret. by destruct (c w) as [[[]| | |] w']. Qed.

(** The calls of [run_benchmarks] are the cases of the matrix, in order. *)
Lemma run_benchmarks_matrix fuel test_vector w :
  run_benchmarks fuel test_vector w = run_configs fuel test_vector matrix w.
Proof.
  unfold run_benchmarks, matrix. cbn [run_configs].
  repeat (apply bind_ext; intros _ ?).
  symmetry. apply bind_ret_unit.
Qed.

Lemma run_configs_app fuel test_vector cs1 cs2 w :
  run_configs fuel test_vector (cs1 ++ cs2) w
  = bind (run_configs fuel test_vector cs1)
         (λ _, run_configs fuel test_vector cs2) w.
Proof.
  revert w. induction cs1 as [|[[TSize m] e] cs1 IH]; intros w.
  - reflexivity.
  - cbn [app run_configs]. rewrite bind_assoc.
    apply bind_ext. intros _ w'. apply IH.
Qed.

Lemma never_escapes_same_grants m e n w w' :
  grants w' = grants w → never_escapes m e n w → never_escapes m e n w'.
Proof.
  intros Hg [?|[?|[?|Hs]]]; [by left|by right; left|by right; right; left|].
  right. right. right. intros k. rewrite Hg. apply Hs.
Qed.

Lemma points_for_cons L (c : config) cs :
  points_for L (c :: cs) = points_for L [c] ++ points_for L cs.
Proof.
  unfold points_for, fitting. rewrite !filter_cons, filter_nil.
  case_decide; by rewrite ?fmap_cons.
Qed.

Lemma points_for_fit L cs :
  Forall (λ p : point, p.1 <= p.2.1.1) (points_for L cs).
Proof.
  unfold points_for, fitting. apply Forall_fmap, Forall_forall.
  intros c Hc. apply list_elem_of_filter in Hc as [Hc _]. exact Hc.
Qed.

(** One call of [MeasureAndReport] from which no failure escapes: nothing
    for a skipped point, one line for a measured one. *)
Lemma MeasureAndReport_reports fuel TSize m e vecData w :
  (1000 ≤ fuel)%nat →
  (∀ k, grants w k (40000 * sizeof_nanoseconds) = true) →
  never_escapes m e (N.of_nat (length vecData)) w →
  ∃ w' lines,
    MeasureAndReport fuel TSize m e vecData w = (Ok (), w') ∧
    clock w' = clock w ∧ grants w' = grants w ∧ allocs w <= allocs w' ∧
    out w' = out w ++ lines ∧
    Forall2 reports (points_for (N.of_nat (length vecData)) [(TSize, m, e)])
            lines.
Proof.
  intros Hfuel Hres Hne. unfold MeasureAndReport, points_for, fitting.
  rewrite filter_cons, filter_nil. simpl.
  destruct (decide (TSize < N.of_nat (length vecData))) as [Hlt|Hge].
  - exists w, []. rewrite decide_False by lia.
    repeat split; [lia|by rewrite app_nil_r|constructor].
  - destruct (MeasureTransform_spec TSize m e vecData fuel w (Hres _)
                Hne Hfuel) as (median & _ & Hrun).
    rewrite decide_True by lia.
    eexists _, [_]. unfold bind. rewrite Hrun. unfold print_line.
    repeat split; [simpl; lia|].
    simpl. constructor; [|constructor]. by exists median.
Qed.

Lemma run_configs_reports fuel test_vector cs w :
  (1000 ≤ fuel)%nat →
  (∀ k, grants w k (40000 * sizeof_nanoseconds) = true) →
  Forall (λ c : config,
            never_escapes c.1.2 c.2 (N.of_nat (length test_vector)) w) cs →
  ∃ w' lines,
    run_configs fuel test_vector cs w = (Ok (), w') ∧
    clock w' = clock w ∧ grants w' = grants w ∧ allocs w <= allocs w' ∧
    out w' = out w ++ lines ∧
    Forall2 reports (points_for (N.of_nat (length test_vector)) cs) lines.
Proof.
  intros Hfuel. revert w.
  induction cs as [|[[TSize m] e] cs IH]; intros w Hres Hne.
  - exists w, []. repeat split; [lia|by rewrite app_nil_r|constructor].
  - apply Forall_cons in Hne as [Hc Hcs]. simpl in Hc.
    destruct (MeasureAndReport_reports fuel TSize m e test_vector w Hfuel
                Hres Hc)
      as (w1 & lines1 & Hrun1 & Hc1 & Hg1 & Ha1 & Ho1 & Hr1).
    destruct (IH w1) as (w2 & lines2 & Hrun2 & Hc2 & Hg2 & Ha2 & Ho2 & Hr2).
    { intros k. rewrite Hg1. apply Hres. }
    { eapply Forall_impl; [exact Hcs|]. intros c.
      by apply never_escapes_same_grants. }
    exists w2, (lines1 ++ lines2).
    cbn [run_configs]. unfold bind. rewrite Hrun1, Hrun2.
    repeat split; [congruence|congruence|lia| |].
    + by rewrite Ho2, Ho1, app_assoc.
    + rewrite points_for_cons. by apply Forall2_app.
Qed.

Lemma all_served_never_escapes w L (cs : list config) :
  all_served w → Forall (λ c : config, never_escapes c.1.2 c.2 L w) cs.
Proof.
  intros Hs. apply Forall_true. intros c. right. right. right.
  intros k. apply Hs.
Qed.

Lemma for_each_vector_reports fuel test_vectors w :
  (1000 ≤ fuel)%nat → all_served w →
  ∃ w' lines,
    for_each_vector fuel test_vectors w = (Ok (), w') ∧
    clock w' = clock w ∧ grants w' = grants w ∧
    out w' = out w ++ lines ∧
    Forall2 reports
      (concat ((λ v, points_for (N.of_nat (length v)) matrix)
               <$> test_vectors))
      lines.
Proof.
  intros Hfuel. revert w.
  induction test_vectors as [|v vs IH]; intros w Hs.
  - exists w, []. repeat split; [by rewrite app_nil_r|constructor].
  - destruct (run_configs_reports fuel v matrix w Hfuel (λ k, Hs k _)
                (all_served_never_escapes w _ matrix Hs))
      as (w1 & lines1 & Hrun1 & Hc1 & Hg1 & _ & Ho1 & Hr1).
    destruct (IH w1) as (w2 & lines2 & Hrun2 & Hc2 & Hg2 & Ho2 & Hr2).
    { intros k n. rewrite Hg1. apply Hs. }
    exists w2, (lines1 ++ lines2).
    cbn [for_each_vector]. unfold bind. rewrite run_benchmarks_matrix.
    rewrite Hrun1, Hrun2.
    repeat split; [congruence|congruence| |].
    + by rewrite Ho2, Ho1, app_assoc.
    + rewrite fmap_cons. cbn [concat]. by apply Forall2_app.
Qed.


(** When the allocator serves the reservation of each call of
    [GenerateData], the loop with the reservations generates the vectors of
    the loop without them, after one request for each. *)
Lemma generate_test_vectors_reserving_spec entropy n fuel s test_vectors w :
  N.of_nat n + s = 33 → 1 <= s → (n + 1024 ≤ fuel)%nat →
  (∀ k n', allocs w <= k < allocs w + N.of_nat n → grants w k n' = true) →
  generate_test_vectors_reserving fuel entropy s test_vectors w
  = (Ok (test_vectors
         ++ ((λ i : nat,
                (λ k : nat,
                   to_byte (entropy (N.of_nat (length test_vectors + i))
                                    (N.of_nat k)))
                <$> seq 0 (N.to_nat ((s + N.of_nat i) * (s + N.of_nat i))))
             <$> seq 0 n)), add_allocs (N.of_nat n) w).
Proof.
  revert fuel s test_vectors w.
  induction n as [|n IH]; intros fuel s test_vectors w Hs Hs1 Hfuel Hg.
  - assert (Hstop : ¬ s <= 32) by lia.
    destruct fuel; cbn [generate_test_vectors_reserving];
      rewrite (decide_False _ _ Hstop); unfold ret; simpl;
      by rewrite app_nil_r, add_allocs_0.
  - assert (Hgo : s <= 32) by lia.
    destruct fuel as [|fuel]; [lia|].
    cbn [generate_test_vectors_reserving]. rewrite (decide_True _ _ Hgo).
    assert (Hsq : s * s <= 1024) by nia.
    unfold bind at 1. unfold GenerateData_reserving, bind at 1.
    unfold reserve. rewrite allocate_served; [|nia|apply Hg; lia].
    rewrite GenerateData_spec by lia.
    rewrite IH; [|lia|lia|lia|].
    + unfold tick_alloc. rewrite add_allocs_add.
      rewrite <- app_assoc. cbn [app seq fmap list_fmap].
      rewrite <- fmap_S_seq, <- list_fmap_compose.
      f_equal; [|f_equal; lia].
      do 3 f_equal.
      * rewrite Nat.add_0_r, N.add_0_r. reflexivity.
      * apply list_fmap_ext. intros _ i _. simpl.
        rewrite length_app. simpl.
        replace (s + 1 + N.of_nat i)
          with (s + N.pos (Pos.of_succ_nat i)) by lia.
        replace (length test_vectors + 1 + i)%nat
          with (length test_vectors + S i)%nat by lia.
        reflexivity.
    + intros k n' Hk. apply Hg. simpl in Hk. lia.
Qed.

End MainFacts.

Section MainRuns.

Context (entropy : N → N → Z).


Lemma generate_test_vectors_reserving_all fuel w :
  (1056 ≤ fuel)%nat →
  (∀ k n, allocs w <= k < allocs w + 32 → grants w k n = true) →
  generate_test_vectors_reserving fuel entropy 1 [] w
  = (Ok ((λ i : nat,
            (λ k : nat, to_byte (entropy (N.of_nat i) (N.of_nat k)))
            <$> seq 0 (N.to_nat ((1 + N.of_nat i) * (1 + N.of_nat i))))
         <$> seq 0 32), add_allocs 32 w).
Proof.
  intros Hfuel Hg.
  rewrite (generate_test_vectors_reserving_spec entropy 32); [done|lia..|].
  intros k n Hk. apply Hg. lia.
Qed.

Lemma test_vectors_points (f : nat → nat → byte) :
  concat ((λ v, points_for (N.of_nat (length v)) matrix)
          <$> ((λ i : nat,
                  f i <$> seq 0 (N.to_nat ((1 + N.of_nat i)
                                           * (1 + N.of_nat i))))
               <$> seq 0 32))
  = reported_points.
Proof.
  unfold reported_points. rewrite <- (fmap_S_seq 0 32).
  rewrite <- !list_fmap_compose. apply (f_equal (@concat point)).
  apply list_fmap_ext. intros _ i _. simpl.
  rewrite length_fmap, length_seq, N2Nat.id.
  apply (f_equal (λ L, points_for L matrix)). lia.
Qed.

(** On one test vector of at most 64 bytes, with an allocator that serves
    the sample vectors and refuses what the vector strategy asks for, the
    first nine cases print their lines and the tenth, without a handler,
    ends the run. *)
Lemma run_benchmarks_aborts fuel test_vector w :
  (∀ k, grants w k (40000 * sizeof_nanoseconds) = true) →
  (∀ k, allocs w <= k →
        grants w k (N.of_nat (length test_vector)) = false) →
  test_vector ≠ [] → N.of_nat (length test_vector) <= 64 →
  (1000 ≤ fuel)%nat →
  ∃ w' lines,
    run_benchmarks fuel test_vector w = (Throw bad_alloc, w') ∧
    out w' = out w ++ lines ∧
    Forall2 reports
      (points_for (N.of_nat (length test_vector)) (take 9 matrix)) lines.
Proof.
  intros Hres Hr Hne Hlen Hfuel.
  rewrite run_benchmarks_matrix, <- (take_drop 9 matrix), run_configs_app.
  destruct (run_configs_reports fuel test_vector (take 9 matrix) w Hfuel Hres)
    as (w1 & lines & Hrun & _ & Hg & Ha & Ho & Hrep).
  { unfold matrix. cbn [take].
    repeat (apply Forall_cons; split; [first [by left|by right; left]|]).
    constructor. }
  exists (tick_alloc (tick_clock (tick_alloc w1))), lines.
  unfold bind at 1. rewrite Hrun.
  unfold matrix. cbn [drop run_configs]. unfold bind at 1.
  destruct fuel as [|fuel]; [lia|].
  rewrite MeasureAndReport_throws; [done|lia| |done|].
  - unfold samples_reserved. rewrite Hg. apply Hres.
  - rewrite Hg. apply Hr. lia.
Qed.

(** With an exhausted allocator the first statement of [main], the
    reservation of [test_vectors], ends the program. *)
Lemma main_all_refused fuel w :
  all_refused w → main fuel entropy w = (Throw bad_alloc, tick_alloc w).
Proof.
  intros Hr. unfold main, bind at 1. unfold reserve.
  by rewrite allocate_refused.
Qed.

End MainRuns.



(** X16.  When the allocator serves every request, [main] returns 0 and
    prints exactly one line for each point that is not skipped, in the order
    of its calls: for [s] from 1 to 32 and an input of [s * s] bytes, the
    cases of the matrix with a capacity of at least [s * s].  That is 334
    lines, and no line reports a capacity below its data size. *)
Theorem main_reports (fuel : nat) (entropy : N → N → Z) (w : World) :
  all_served w → (1056 ≤ fuel)%nat →
  ∃ (w' : World) (lines : list string),
    main fuel entropy w = (Ok 0%Z, w') ∧
    out w' = out w ++ lines ∧
    Forall2 reports reported_points lines ∧
    length lines = 334%nat ∧
    Forall (λ p : point, p.1 <= p.2.1.1) reported_points.
Proof.
  intros Hs Hfuel.
  destruct (for_each_vector_reports fuel
              ((λ i : nat,
                  (λ k : nat, to_byte (entropy (N.of_nat i) (N.of_nat k)))
                  <$> seq 0 (N.to_nat ((1 + N.of_nat i) * (1 + N.of_nat i))))
               <$> seq 0 32) (add_allocs 32 (tick_alloc w)))
    as (w' & lines & Hrun & _ & _ & Ho & Hrep); [lia|done|].
  rewrite test_vectors_points in Hrep.
  exists w', lines. unfold main, bind at 1. unfold reserve.
  rewrite allocate_served; [|done|apply Hs]. unfold bind.
  rewrite generate_test_vectors_reserving_all; [|done|intros; apply Hs].
  rewrite Hrun.
  split; [done|]. split; [done|]. split; [done|]. split.
  - rewrite <- (Forall2_length _ _ _ Hrep). by vm_compute.
  - unfold reported_points. apply Forall_concat, Forall_fmap, Forall_true.
    intros s. apply points_for_fit.
Qed.

Lemma main_reports_witness :
  ∃ (w' : World) (lines : list string),
    main 1056 (λ c k, Z.of_N (c + k)) serving_world = (Ok 0%Z, w') ∧
    out w' = lines ∧ length lines = 334%nat.
Proof.
  destruct (main_reports 1056 (λ c k, Z.of_N (c + k)) serving_world)
    as (w' & lines & Hrun & Ho & _ & Hl & _).
  - intros k n. reflexivity.
  - apply le_n.
  - exists w', lines. split; [exact Hrun|]. split; [exact Ho|exact Hl].
Defined.

(** X17.  When the allocator serves the harness (the reservation of
    [test_vectors], of the 32 test vectors and of every sample vector) and
    refuses every other request, [main] ends in [std::bad_alloc] on the first
    test vector, at the case with capacity 64, the vector strategy and no
    handler: the nine cases before it have each printed their line (the
    vector cases among them measuring the recovery path), and nothing is
    printed after that. *)
Theorem main_aborts_at_first_unhandled_case (fuel : nat)
    (entropy : N → N → Z) (w : World) :
  serves_harness_only w → (1056 ≤ fuel)%nat →
  ∃ (w' : World) (lines : list string),
    main fuel entropy w = (Throw bad_alloc, w') ∧
    out w' = out w ++ lines ∧
    Forall2 reports (points_for 1 (take 9 matrix)) lines ∧
    length lines = 9%nat.
Proof.
  intros (Hfirst & Hres & Hrest) Hfuel. unfold main, bind at 1.
  unfold reserve. rewrite allocate_served; [|done|apply Hfirst; lia].
  unfold bind at 1.
  rewrite generate_test_vectors_reserving_all;
    [|done|intros k n Hk; apply Hfirst; simpl in Hk; lia].
  change (seq 0 32) with (0%nat :: seq 1 31). rewrite fmap_cons.
  unfold bind at 1. cbn [for_each_vector]. unfold bind at 1.
  destruct (run_benchmarks_aborts fuel
              ((λ k : nat, to_byte (entropy (N.of_nat 0) (N.of_nat k)))
               <$> seq 0 (N.to_nat ((1 + N.of_nat 0) * (1 + N.of_nat 0))))
              (add_allocs 32 (tick_alloc w)))
    as (w' & lines & Hrun & Ho & Hrep).
  - exact Hres.
  - intros k Hk. apply Hrest; [simpl in Hk; lia|discriminate].
  - discriminate.
  - simpl. lia.
  - lia.
  - rewrite Hrun. exists w', lines.
    split; [done|]. split; [done|]. split; [exact Hrep|].
    by rewrite <- (Forall2_length _ _ _ Hrep).
Qed.

Lemma main_aborts_at_first_unhandled_case_witness :
  ∃ (w' : World) (lines : list string),
    main 1056 (λ c k, Z.of_N (c + k)) harness_only_world
    = (Throw bad_alloc, w') ∧
    out w' = lines ∧ length lines = 9%nat.
Proof.
  destruct (main_aborts_at_first_unhandled_case 1056 (λ c k, Z.of_N (c + k))
              harness_only_world) as (w' & lines & Hrun & Ho & _ & Hl).
  - split; [|split].
    + intros k n Hk. simpl in *. apply bool_decide_eq_true. by left.
    + intros k. simpl. apply bool_decide_eq_true. by right.
    + intros k n Hk Hn. simpl in *. apply bool_decide_eq_false.
      intros [?|?]; [lia|done].
  - apply le_n.
  - exists w', lines. split; [exact Hrun|]. split; [exact Ho|exact Hl].
Defined.
